(** * InputManager: keyboard and gamepad routing for the PICO-8 front-end

    Shallow embedding of [src/services/InputManager.js] and the properties
    of its two consumer protocols: the packed button mask written to
    [window.pico8_buttons[0]] in GAME mode and the edge-triggered navigation
    events emitted in UI mode.

    Conventions of the embedding.
    - JS objects used as string-keyed tables ([this.keys],
      [this.lastButtonState]) are [gmap string bool]; reading an absent key
      gives [undefined], which every use in the source only tests for
      truthiness ([truthy]).
    - The browser side the service talks to (the [window.pico8_buttons]
      array, slot 0 of [navigator.getGamepads()], the settings store, the
      animation-frame queue, the window key handlers) is part of [World].
    - Listeners are observers: a call of [emit] is recorded, in order, in
      [emitted].  Listener bodies live outside this file and are assumed to
      return normally without calling back into the service.
    - The only operation of the source that can raise is a property read on
      [undefined] ([gp.buttons] or [gp.axes] missing); [Js] is the
      state-and-exception monad that carries it. *)

From Stdlib Require Import ZArith QArith Bool List.
From stdpp Require Import base option list strings gmap.

Local Open Scope string_scope.
Local Open Scope Z_scope.
Local Open Scope list_scope.

(** ** Values coming from JavaScript *)

(** Arguments of [setMode] are arbitrary JS values. *)
Inductive JsValue : Type :=
  | JsUndefined
  | JsNull
  | JsBoolean (b : bool)
  | JsNumber (n : Z)
  | JsString (s : string).

(** [!!o] of a table read: [undefined] and [false] are falsy. *)
Definition truthy (o : option bool) : bool := default false o.

(** ** The static frame buffer [this._inputBuffer] *)

Module Buf.
Record t : Type := mk {
  up : bool; down : bool; left : bool; right : bool;
  a : bool; b : bool; x : bool; y : bool;
  start : bool; select : bool
}.

Definition set_up (v : bool) (s : t) : t :=
  mk v (down s) (left s) (right s) (a s) (b s) (x s) (y s) (start s) (select s).
Definition set_down (v : bool) (s : t) : t :=
  mk (up s) v (left s) (right s) (a s) (b s) (x s) (y s) (start s) (select s).
Definition set_left (v : bool) (s : t) : t :=
  mk (up s) (down s) v (right s) (a s) (b s) (x s) (y s) (start s) (select s).
Definition set_right (v : bool) (s : t) : t :=
  mk (up s) (down s) (left s) v (a s) (b s) (x s) (y s) (start s) (select s).
Definition set_a (v : bool) (s : t) : t :=
  mk (up s) (down s) (left s) (right s) v (b s) (x s) (y s) (start s) (select s).
Definition set_b (v : bool) (s : t) : t :=
  mk (up s) (down s) (left s) (right s) (a s) v (x s) (y s) (start s) (select s).
Definition set_x (v : bool) (s : t) : t :=
  mk (up s) (down s) (left s) (right s) (a s) (b s) v (y s) (start s) (select s).
Definition set_y (v : bool) (s : t) : t :=
  mk (up s) (down s) (left s) (right s) (a s) (b s) (x s) v (start s) (select s).
Definition set_start (v : bool) (s : t) : t :=
  mk (up s) (down s) (left s) (right s) (a s) (b s) (x s) (y s) v (select s).
Definition set_select (v : bool) (s : t) : t :=
  mk (up s) (down s) (left s) (right s) (a s) (b s) (x s) (y s) (start s) v.

(** The literal of the constructor, lines 26-37. *)
Definition init : t :=
  mk false false false false false false false false false false.
End Buf.

(** ** Gamepad objects as the sampler reads them *)

(** An axis entry is a double; the sampler only compares it with [0.5] and
    [-0.5], both exact, so a finite value is a rational. *)
Inductive AxisValue : Type :=
  | AxisNum (q : Q)
  | AxisNaN.

(** A button object; [pressed] may be missing. *)
Record GamepadButton : Type := { pressed : option bool }.

(** [buttons] and [axes] are [None] when the property itself is
    [undefined]; an entry of [buttons] is [None] when it is [null] or
    [undefined]. *)
Record Gamepad : Type := {
  buttons : option (list (option GamepadButton));
  axes : option (list AxisValue)
}.

(** ** The service object and its surroundings *)

Record Service : Type := {
  inputMode : string;                   (* this.state.inputMode *)
  active : bool;                        (* this.state.active *)
  loopId : option nat;                  (* null, or a requestAnimationFrame handle *)
  lastButtonState : gmap string bool;
  _inputBuffer : Buf.t;
  swapButtons : bool;
  isAndroid : bool;
  _justSwapped : bool;
  keys : gmap string bool
}.

Record World : Type := {
  this : Service;
  pico8_buttons : option (list Z);      (* window.pico8_buttons, None when falsy *)
  gamepad0 : option Gamepad;            (* navigator.getGamepads()[0], None when absent *)
  storeSwapButtons : bool;              (* useLibraryStore().swapButtons *)
  swapWatchers : nat;                   (* watch() registrations on the store *)
  keydownBound : bool;                  (* boundKeyHandler attached for keydown *)
  keyupBound : bool;                    (* boundKeyHandler attached for keyup *)
  rafQueue : list nat;                  (* pending requestAnimationFrame handles *)
  rafLast : nat;                        (* last handle handed out *)
  emitted : list string                 (* calls of emit, oldest first *)
}.

Definition set_inputMode (v : string) (s : Service) : Service :=
  {| inputMode := v; active := active s; loopId := loopId s;
     lastButtonState := lastButtonState s; _inputBuffer := _inputBuffer s;
     swapButtons := swapButtons s; isAndroid := isAndroid s;
     _justSwapped := _justSwapped s; keys := keys s |}.
Definition set_active (v : bool) (s : Service) : Service :=
  {| inputMode := inputMode s; active := v; loopId := loopId s;
     lastButtonState := lastButtonState s; _inputBuffer := _inputBuffer s;
     swapButtons := swapButtons s; isAndroid := isAndroid s;
     _justSwapped := _justSwapped s; keys := keys s |}.
Definition set_loopId (v : option nat) (s : Service) : Service :=
  {| inputMode := inputMode s; active := active s; loopId := v;
     lastButtonState := lastButtonState s; _inputBuffer := _inputBuffer s;
     swapButtons := swapButtons s; isAndroid := isAndroid s;
     _justSwapped := _justSwapped s; keys := keys s |}.
Definition set_lastButtonState (v : gmap string bool) (s : Service) : Service :=
  {| inputMode := inputMode s; active := active s; loopId := loopId s;
     lastButtonState := v; _inputBuffer := _inputBuffer s;
     swapButtons := swapButtons s; isAndroid := isAndroid s;
     _justSwapped := _justSwapped s; keys := keys s |}.
Definition set_inputBuffer (v : Buf.t) (s : Service) : Service :=
  {| inputMode := inputMode s; active := active s; loopId := loopId s;
     lastButtonState := lastButtonState s; _inputBuffer := v;
     swapButtons := swapButtons s; isAndroid := isAndroid s;
     _justSwapped := _justSwapped s; keys := keys s |}.
Definition set_swapButtons (v : bool) (s : Service) : Service :=
  {| inputMode := inputMode s; active := active s; loopId := loopId s;
     lastButtonState := lastButtonState s; _inputBuffer := _inputBuffer s;
     swapButtons := v; isAndroid := isAndroid s;
     _justSwapped := _justSwapped s; keys := keys s |}.
Definition set_justSwapped (v : bool) (s : Service) : Service :=
  {| inputMode := inputMode s; active := active s; loopId := loopId s;
     lastButtonState := lastButtonState s; _inputBuffer := _inputBuffer s;
     swapButtons := swapButtons s; isAndroid := isAndroid s;
     _justSwapped := v; keys := keys s |}.
Definition set_keys (v : gmap string bool) (s : Service) : Service :=
  {| inputMode := inputMode s; active := active s; loopId := loopId s;
     lastButtonState := lastButtonState s; _inputBuffer := _inputBuffer s;
     swapButtons := swapButtons s; isAndroid := isAndroid s;
     _justSwapped := _justSwapped s; keys := v |}.

(** Apply an update to [this], leaving the browser side alone. *)
Definition onThis (f : Service -> Service) (w : World) : World :=
  {| this := f (this w); pico8_buttons := pico8_buttons w;
     gamepad0 := gamepad0 w; storeSwapButtons := storeSwapButtons w;
     swapWatchers := swapWatchers w; keydownBound := keydownBound w;
     keyupBound := keyupBound w; rafQueue := rafQueue w;
     rafLast := rafLast w; emitted := emitted w |}.
Definition set_pico8_buttons (v : option (list Z)) (w : World) : World :=
  {| this := this w; pico8_buttons := v;
     gamepad0 := gamepad0 w; storeSwapButtons := storeSwapButtons w;
     swapWatchers := swapWatchers w; keydownBound := keydownBound w;
     keyupBound := keyupBound w; rafQueue := rafQueue w;
     rafLast := rafLast w; emitted := emitted w |}.
Definition set_gamepad0 (v : option Gamepad) (w : World) : World :=
  {| this := this w; pico8_buttons := pico8_buttons w;
     gamepad0 := v; storeSwapButtons := storeSwapButtons w;
     swapWatchers := swapWatchers w; keydownBound := keydownBound w;
     keyupBound := keyupBound w; rafQueue := rafQueue w;
     rafLast := rafLast w; emitted := emitted w |}.
Definition set_storeSwapButtons (v : bool) (w : World) : World :=
  {| this := this w; pico8_buttons := pico8_buttons w;
     gamepad0 := gamepad0 w; storeSwapButtons := v;
     swapWatchers := swapWatchers w; keydownBound := keydownBound w;
     keyupBound := keyupBound w; rafQueue := rafQueue w;
     rafLast := rafLast w; emitted := emitted w |}.
Definition set_swapWatchers (v : nat) (w : World) : World :=
  {| this := this w; pico8_buttons := pico8_buttons w;
     gamepad0 := gamepad0 w; storeSwapButtons := storeSwapButtons w;
     swapWatchers := v; keydownBound := keydownBound w;
     keyupBound := keyupBound w; rafQueue := rafQueue w;
     rafLast := rafLast w; emitted := emitted w |}.
Definition set_keyBound (down up : bool) (w : World) : World :=
  {| this := this w; pico8_buttons := pico8_buttons w;
     gamepad0 := gamepad0 w; storeSwapButtons := storeSwapButtons w;
     swapWatchers := swapWatchers w; keydownBound := down;
     keyupBound := up; rafQueue := rafQueue w;
     rafLast := rafLast w; emitted := emitted w |}.
Definition set_raf (queue : list nat) (last : nat) (w : World) : World :=
  {| this := this w; pico8_buttons := pico8_buttons w;
     gamepad0 := gamepad0 w; storeSwapButtons := storeSwapButtons w;
     swapWatchers := swapWatchers w; keydownBound := keydownBound w;
     keyupBound := keyupBound w; rafQueue := queue;
     rafLast := last; emitted := emitted w |}.
Definition set_emitted (v : list string) (w : World) : World :=
  {| this := this w; pico8_buttons := pico8_buttons w;
     gamepad0 := gamepad0 w; storeSwapButtons := storeSwapButtons w;
     swapWatchers := swapWatchers w; keydownBound := keydownBound w;
     keyupBound := keyupBound w; rafQueue := rafQueue w;
     rafLast := rafLast w; emitted := v |}.

(** [this.keys[k]] and [this.lastButtonState[e]] as conditions. *)
Definition keyHeld (w : World) (k : string) : bool :=
  truthy (keys (this w) !! k).
Definition wasPressed (w : World) (e : string) : bool :=
  truthy (lastButtonState (this w) !! e).

(** The object literal assigned in the constructor and in [setMode]. *)
Definition clearedButtonState : gmap string bool :=
  <["menu" := false]> (<["navUp" := false]> (<["navDown" := false]>
  (<["navLeft" := false]> (<["navRight" := false]> (<["confirm" := false]>
  (<["back" := false]> ∅)))))).

(** ** Exceptions *)

Inductive JsError : Type := TypeError.

Inductive Completion (A : Type) : Type :=
  | Normal (v : A)
  | Throw (e : JsError).
Arguments Normal {A} v.
Arguments Throw {A} e.

(** A computation runs on a mutable state [S], changes it, and returns or
    throws; the state at a throw is kept, as mutations made before it are
    not undone. *)
Definition St (S A : Type) : Type := S -> Completion A * S.

Definition ret {S A : Type} (v : A) : St S A := fun s => (Normal v, s).
Definition throw {S A : Type} (e : JsError) : St S A := fun s => (Throw e, s).
Definition bind {S A B : Type} (m : St S A) (k : A -> St S B) : St S B :=
  fun s =>
    match m s with
    | (Normal v, s') => k v s'
    | (Throw e, s') => (Throw e, s')
    end.
Definition get {S : Type} : St S S := fun s => (Normal s, s).
Definition lift {S : Type} (f : S -> S) : St S unit := fun s => (Normal tt, f s).
Definition when {S : Type} (c : bool) (m : St S unit) : St S unit :=
  if c then m else ret tt.

Declare Scope js_scope.
Delimit Scope js_scope with js.
Notation "'let*' x ':=' m 'in' k" := (bind m (fun x => k))
  (at level 10, x name, m at level 100, k at level 200) : js_scope.
Notation "m '>>' k" := (bind m (fun _ => k))
  (at level 90, right associativity) : js_scope.

(** Methods of the service run in the whole world. *)
Definition Js (A : Type) : Type := St World A.

(** A block that only touches the object behind [const buf =
    this._inputBuffer]. *)
Definition onBuffer {A : Type} (m : St Buf.t A) : Js A :=
  fun w =>
    let '(c, buf) := m (_inputBuffer (this w)) in
    (c, onThis (set_inputBuffer buf) w).

(** ** Event bus *)

(** [emit(eventName)], lines 328-330: every listener is called with the
    name; the call is recorded. *)
Definition emit (eventName : string) (w : World) : World :=
  set_emitted (emitted w ++ [eventName]) w.

(** [emitOnce(event)], lines 306-311. *)
Definition emitOnce (event : string) (w : World) : World :=
  if negb (wasPressed w event) then
    let w := emit event w in
    onThis (fun s => set_lastButtonState (<[event := true]> (lastButtonState s)) s) w
  else w.

(** [emitChange(event, isPressed)], lines 313-326. *)
Definition emitChange (event : string) (isPressed : bool) (w : World) : World :=
  if isPressed then
    if negb (wasPressed w event) then
      let w := emit event w in
      onThis (fun s => set_lastButtonState (<[event := true]> (lastButtonState s)) s) w
    else w
  else
    if _justSwapped (this w) && (String.eqb event "back" || String.eqb event "confirm")
    then w
    else onThis (fun s => set_lastButtonState (<[event := false]> (lastButtonState s)) s) w.

(** ** Key-state tracker, mode control, lifecycle *)

(** [handleKey(e)], lines 97-99, for an event with [e.key = key] and
    [e.type = type]. *)
Definition handleKey (key type : string) (w : World) : World :=
  onThis (fun s => set_keys (<[key := String.eqb type "keydown"]> (keys s)) s) w.

(** [arr[0] = v] on a JS array: the first element is replaced, an empty
    array grows to length one. *)
Definition assign0 (v : Z) (arr : list Z) : list Z :=
  match arr with
  | [] => [v]
  | _ :: rest => v :: rest
  end.

(** [if (window.pico8_buttons) window.pico8_buttons[0] = v]. *)
Definition writeButtons (v : Z) (w : World) : World :=
  match pico8_buttons w with
  | Some arr => set_pico8_buttons (Some (assign0 v arr)) w
  | None => w
  end.

(** [["UI", "GAME"].includes(mode)]: only the two primitive strings. *)
Definition isMode (mode : JsValue) : option string :=
  match mode with
  | JsString s => if String.eqb s "UI" || String.eqb s "GAME" then Some s else None
  | _ => None
  end.

(** [setMode(mode)], lines 107-127. *)
Definition setMode (mode : JsValue) (w : World) : World :=
  match isMode mode with
  | None => w
  | Some m =>
      let w := onThis (set_inputMode m) w in
      let w := onThis (set_lastButtonState clearedButtonState) w in
      if String.eqb m "UI" then writeButtons 0 w else w
  end.

(** The callback given to [watch] in [init], lines 65-75. *)
Definition onSwapButtons (newVal : bool) (w : World) : World :=
  let oldVal := swapButtons (this w) in
  let w := onThis (set_swapButtons newVal) w in
  if String.eqb (inputMode (this w)) "UI" && negb (Bool.eqb newVal oldVal) then
    let w := onThis (fun s => set_lastButtonState (<["back" := true]> (lastButtonState s)) s) w in
    let w := onThis (fun s => set_lastButtonState (<["confirm" := true]> (lastButtonState s)) s) w in
    onThis (set_justSwapped true) w
  else w.

(** [if (this.loopId)]: [null] and the number 0 are falsy. *)
Definition loopRunning (w : World) : bool :=
  match loopId (this w) with
  | Some id => negb (Nat.eqb id 0)
  | None => false
  end.

(** [destroy()], lines 87-95. *)
Definition destroy (w : World) : World :=
  let w :=
    if loopRunning w then
      let id := default 0%nat (loopId (this w)) in
      let w := set_raf (filter (fun h => h <> id) (rafQueue w)) (rafLast w) w in
      onThis (set_loopId None) w
    else w in
  let w := set_keyBound false false w in
  onThis (set_active false) w.

(** ** Device sampler *)

(** [btns[i]?.pressed]: a [TypeError] when [btns] is [undefined];
    [undefined] when the entry is absent, [null], or has no [pressed]. *)
Definition pressedAt {S : Type} (btns : option (list (option GamepadButton)))
    (i : nat) : St S (option bool) :=
  match btns with
  | None => throw TypeError
  | Some l =>
      ret (match l !! i with
           | Some (Some btn) => pressed btn
           | _ => None
           end)
  end.

(** [axes[i]]: a [TypeError] when [axes] is [undefined]. *)
Definition axisAt {S : Type} (axes : option (list AxisValue)) (i : nat)
  : St S (option AxisValue) :=
  match axes with
  | None => throw TypeError
  | Some l => ret (l !! i)
  end.

(** [v < c] and [v > c] for a number [c]: [undefined] converts to [NaN],
    and every comparison with [NaN] is false. *)
Definition jsLt (v : option AxisValue) (c : Q) : bool :=
  match v with
  | Some (AxisNum q) => negb (Qle_bool c q)
  | _ => false
  end.
Definition jsGt (v : option AxisValue) (c : Q) : bool :=
  match v with
  | Some (AxisNum q) => negb (Qle_bool q c)
  | _ => false
  end.

(** [btns[i]?.pressed || false]. *)
Definition face {S : Type} (btns : option (list (option GamepadButton)))
    (i : nat) : St S bool :=
  (let* p := pressedAt btns i in
   ret (truthy p || false))%js.

(** [btns[i]?.pressed || cmp(axes[j]) || false]: the axis is read only
    when the button is not pressed. *)
Definition hybrid {S : Type} (btns : option (list (option GamepadButton)))
    (i : nat) (axes : option (list AxisValue)) (j : nat)
    (cmp : option AxisValue -> bool) : St S bool :=
  (let* p := pressedAt btns i in
   if truthy p then ret true
   else
     let* v := axisAt axes j in
     ret (cmp v || false))%js.

(** Lines 147-163, the branch taken when a gamepad is present. *)
Definition sampleGamepad (gp : Gamepad) : St Buf.t unit :=
  (let btns := buttons gp in
   let axes := axes gp in
   let* v := face btns 0 in lift (Buf.set_a v) >>
   let* v := face btns 1 in lift (Buf.set_b v) >>
   let* v := face btns 2 in lift (Buf.set_x v) >>
   let* v := face btns 3 in lift (Buf.set_y v) >>
   let* v := face btns 8 in lift (Buf.set_select v) >>
   let* v := face btns 9 in lift (Buf.set_start v) >>
   let* v := hybrid btns 12 axes 1 (fun t => jsLt t (-1 # 2)) in
   lift (Buf.set_up v) >>
   let* v := hybrid btns 13 axes 1 (fun t => jsGt t (1 # 2)) in
   lift (Buf.set_down v) >>
   let* v := hybrid btns 14 axes 0 (fun t => jsLt t (-1 # 2)) in
   lift (Buf.set_left v) >>
   let* v := hybrid btns 15 axes 0 (fun t => jsGt t (1 # 2)) in
   lift (Buf.set_right v))%js.

(** Lines 164-176, the branch taken without a gamepad. *)
Definition resetGamepad : St Buf.t unit :=
  (lift (Buf.set_a false) >>
   lift (Buf.set_b false) >>
   lift (Buf.set_x false) >>
   lift (Buf.set_y false) >>
   lift (Buf.set_select false) >>
   lift (Buf.set_start false) >>
   lift (Buf.set_up false) >>
   lift (Buf.set_down false) >>
   lift (Buf.set_left false) >>
   lift (Buf.set_right false))%js.

(** Lines 178-182, with [ks] the table [this.keys]. *)
Definition sampleKeyboard (ks : gmap string bool) : St Buf.t unit :=
  (when (truthy (ks !! "ArrowUp")) (lift (Buf.set_up true)) >>
   when (truthy (ks !! "ArrowDown")) (lift (Buf.set_down true)) >>
   when (truthy (ks !! "ArrowLeft")) (lift (Buf.set_left true)) >>
   when (truthy (ks !! "ArrowRight")) (lift (Buf.set_right true)))%js.

(** Lines 142-182 as a program on the buffer, for the gamepad [gp] found
    in slot 0 and the key table [ks]. *)
Definition sampleInto (gp : option Gamepad) (ks : gmap string bool)
  : St Buf.t unit :=
  (match gp with
   | Some gp => sampleGamepad gp
   | None => resetGamepad
   end >>
   sampleKeyboard ks)%js.

(** Lines 142-182: everything [poll] does before it looks at the mode. *)
Definition sample : Js unit :=
  (let* w := get in
   onBuffer (sampleInto (gamepad0 w) (keys (this w))))%js.

(** ** Button mapper and mode dispatcher *)

(** The two key groups of lines 201-240. *)
Definition keysZCN (w : World) : bool :=
  keyHeld w "z" || keyHeld w "Z" || keyHeld w "c" || keyHeld w "C"
  || keyHeld w "n" || keyHeld w "N".
Definition keysXVM (w : World) : bool :=
  keyHeld w "x" || keyHeld w "X" || keyHeld w "v" || keyHeld w "V"
  || keyHeld w "m" || keyHeld w "M".

(** The mask computed by lines 186-244. *)
Definition gameMask (w : World) : Z :=
  let buf := _inputBuffer (this w) in
  let mask := 0 in
  let mask := if Buf.left buf then Z.lor mask 1 else mask in
  let mask := if Buf.right buf then Z.lor mask 2 else mask in
  let mask := if Buf.up buf then Z.lor mask 4 else mask in
  let mask := if Buf.down buf then Z.lor mask 8 else mask in
  let o := false in
  let x := false in
  let '(o, x) :=
    if negb (swapButtons (this w)) then
      let o := if Buf.a buf || Buf.y buf then true else o in
      let x := if Buf.b buf || Buf.x buf then true else x in
      let o := if keysZCN w then true else o in
      let x := if keysXVM w then true else x in
      (o, x)
    else
      let o := if Buf.b buf || Buf.x buf then true else o in
      let x := if Buf.a buf || Buf.y buf then true else x in
      let o := if keysXVM w then true else o in
      let x := if keysZCN w then true else x in
      (o, x) in
  let mask := if o then Z.lor mask 16 else mask in
  let mask := if x then Z.lor mask 32 else mask in
  mask.

(** The condition of lines 247-253. *)
Definition menuTriggered (w : World) : bool :=
  let buf := _inputBuffer (this w) in
  Buf.select buf || Buf.start buf || keyHeld w "Escape" || keyHeld w "p"
  || keyHeld w "P".

(** Lines 185-263: the GAME branch of [poll]. *)
Definition pollGame (w : World) : World :=
  let mask := gameMask w in
  let w :=
    if menuTriggered w then emitOnce "menu" w
    else onThis (fun s => set_lastButtonState (<["menu" := false]> (lastButtonState s)) s) w in
  writeButtons mask w.

(** [confirm] and [back] as lines 273-299 compute them. *)
Definition uiConfirm (w : World) : bool :=
  let buf := _inputBuffer (this w) in
  let confirm := false in
  let confirm :=
    if negb (swapButtons (this w)) then (if Buf.a buf then true else confirm)
    else (if Buf.b buf then true else confirm) in
  if keyHeld w "z" || keyHeld w "Z" || keyHeld w "Enter" || keyHeld w " "
  then true else confirm.
Definition uiBack (w : World) : bool :=
  let buf := _inputBuffer (this w) in
  let back := false in
  let back :=
    if negb (swapButtons (this w)) then (if Buf.b buf then true else back)
    else (if Buf.a buf then true else back) in
  if keyHeld w "x" || keyHeld w "X" || keyHeld w "Backspace" || keyHeld w "Escape"
  then true else back.

(** Lines 265-303: the UI branch of [poll]. *)
Definition pollUI (w : World) : World :=
  let buf := _inputBuffer (this w) in
  let w := emitChange "nav-up" (Buf.up buf) w in
  let w := emitChange "nav-down" (Buf.down buf) w in
  let w := emitChange "nav-left" (Buf.left buf) w in
  let w := emitChange "nav-right" (Buf.right buf) w in
  let confirm := uiConfirm w in
  let back := uiBack w in
  let w := emitChange "confirm" confirm w in
  emitChange "back" back w.

(** [poll()], lines 141-304. *)
Definition poll : Js unit :=
  (sample >>
   let* w := get in
   if String.eqb (inputMode (this w)) "GAME" then lift pollGame
   else lift pollUI)%js.

(** [requestAnimationFrame(cb)]: a fresh non-zero handle is queued. *)
Definition requestAnimationFrame : Js nat :=
  fun w =>
    let id := S (rafLast w) in
    (Normal id, set_raf (rafQueue w ++ [id]) id w).

(** [loop], lines 129-139. *)
Definition loop : Js unit :=
  (lift (onThis (set_justSwapped false)) >>
   let* w := get in
   when (isAndroid (this w)) poll >>
   poll >>
   let* id := requestAnimationFrame in
   lift (onThis (set_loopId (Some id))))%js.

(** [init()], lines 54-85; the [watch] callback is [onSwapButtons]. *)
Definition init : Js unit :=
  (let* w := get in
   if loopRunning w then ret tt
   else
     lift (onThis (set_active true)) >>
     lift (onThis (set_swapButtons (storeSwapButtons w))) >>
     lift (set_swapWatchers (S (swapWatchers w))) >>
     lift (set_keyBound true true) >>
     loop)%js.

(** The store assigns [swapButtons]; every registered watcher runs, and
    only when the value changed. *)
Definition storeSetSwapButtons (v : bool) (w : World) : World :=
  if Bool.eqb v (storeSwapButtons w) then w
  else Nat.iter (swapWatchers w) (onSwapButtons v) (set_storeSwapButtons v w).

(** The world right after the constructor, lines 6-52, in a browser. *)
Definition newService (android : bool) : Service :=
  {| inputMode := "UI"; active := false; loopId := None;
     lastButtonState := clearedButtonState; _inputBuffer := Buf.init;
     swapButtons := false; isAndroid := android; _justSwapped := false;
     keys := ∅ |}.
Definition newWorld (android : bool) (gp : option Gamepad) : World :=
  {| this := newService android;
     pico8_buttons := Some [0; 0; 0; 0; 0; 0; 0; 0];
     gamepad0 := gp; storeSwapButtons := false; swapWatchers := 0;
     keydownBound := false; keyupBound := false;
     rafQueue := []; rafLast := 0; emitted := [] |}.

(** ** Runs of the frame driver *)

(** What reaches the service between two frames: a key transition
    delivered to [boundKeyHandler], a change of the hardware seen in slot 0
    of [navigator.getGamepads()], an assignment to the store's
    [swapButtons]. *)
Inductive Notification : Type :=
  | KeyTransition (key type : string)
  | GamepadChange (gp : option Gamepad)
  | SwapAssigned (v : bool).

Definition notify (n : Notification) (w : World) : World :=
  match n with
  | KeyTransition key type => handleKey key type w
  | GamepadChange gp => set_gamepad0 gp w
  | SwapAssigned v => storeSetSwapButtons v w
  end.

Definition notifyAll (ns : list Notification) (w : World) : World :=
  foldl (fun w n => notify n w) w ns.

(** One display refresh: the notifications that arrived, then [loop]. *)
Definition frame (ns : list Notification) : Js unit :=
  (lift (notifyAll ns) >> loop)%js.

Fixpoint runFrames (fs : list (list Notification)) : Js unit :=
  match fs with
  | [] => ret tt
  | ns :: fs' => (frame ns >> runFrames fs')%js
  end.

(** The events emitted on the way from [w] to [w']. *)
Definition eventsSince (w w' : World) : list string :=
  drop (length (emitted w)) (emitted w').

Definition occurrences (e : string) (l : list string) : nat :=
  length (filter (fun e' => e' = e) l).

(** ** Vocabulary of the properties *)

(** The names [poll] hands to [emitChange]. *)
Definition navEvents : list string :=
  ["nav-up"; "nav-down"; "nav-left"; "nav-right"; "confirm"; "back"].

(** The [isPressed] argument of each [emitChange] call of the UI branch,
    in call order, for a world whose buffer has been sampled. *)
Definition uiSignals (w : World) : list (string * bool) :=
  let buf := _inputBuffer (this w) in
  [("nav-up", Buf.up buf); ("nav-down", Buf.down buf);
   ("nav-left", Buf.left buf); ("nav-right", Buf.right buf);
   ("confirm", uiConfirm w); ("back", uiBack w)].

(** The reading of event [e]'s input by a poll started in [w]: [Some p]
    when sampling completes and [emitChange e p] is what the UI branch
    calls, [None] when sampling throws or [e] is not a navigation event. *)
Definition navReading (e : string) (w : World) : option bool :=
  match sample w with
  | (Normal _, ws) => list_to_map (M := gmap string bool) (uiSignals ws) !! e
  | (Throw _, _) => None
  end.

(** The input of [e] reads pressed in every frame of the run. *)
Fixpoint heldThrough (e : string) (fs : list (list Notification)) (w : World)
  : Prop :=
  match fs with
  | [] => True
  | ns :: fs' =>
      navReading e (notifyAll ns w) = Some true
      /\ heldThrough e fs' (snd (frame ns w))
  end.

(** The sources of the two action buttons of GAME mode. *)
Inductive Source : Type :=
  | FaceA | FaceB | FaceX | FaceY
  | Key (k : string).

Definition sourceActive (w : World) (src : Source) : bool :=
  match src with
  | FaceA => Buf.a (_inputBuffer (this w))
  | FaceB => Buf.b (_inputBuffer (this w))
  | FaceX => Buf.x (_inputBuffer (this w))
  | FaceY => Buf.y (_inputBuffer (this w))
  | Key k => keyHeld w k
  end.

Definition primarySources : list Source :=
  [FaceA; FaceY; Key "z"; Key "Z"; Key "c"; Key "C"; Key "n"; Key "N"].
Definition secondarySources : list Source :=
  [FaceB; FaceX; Key "x"; Key "X"; Key "v"; Key "V"; Key "m"; Key "M"].

(** The swap flag exchanges the two source sets as a whole. *)
Definition oSources (swap : bool) : list Source :=
  if swap then secondarySources else primarySources.
Definition xSources (swap : bool) : list Source :=
  if swap then primarySources else secondarySources.

(** A button entry that carries no [pressed] value: out of range, [null]
    or [undefined], or an object without the property. *)
Definition missingButton (btns : list (option GamepadButton)) (i : nat) : Prop :=
  match btns !! i with
  | Some (Some btn) => pressed btn = None
  | _ => True
  end.

(** ** Closed forms used by the proofs *)

(** Replace the edge memory and the record of emitted events. *)
Definition withEdge (m : gmap string bool) (l : list string) (w : World) : World :=
  set_emitted l (onThis (set_lastButtonState m) w).

(** [emitChange] on the pair it acts on, for a fixed guard flag. *)
Definition edgeStep (guard : bool) (e : string) (p : bool)
    (st : gmap string bool * list string) : gmap string bool * list string :=
  if p then
    if negb (truthy (st.1 !! e)) then (<[e := true]> (st.1), st.2 ++ [e]) else st
  else
    if guard && (String.eqb e "back" || String.eqb e "confirm") then st
    else (<[e := false]> (st.1), st.2).

Definition edgeRun (guard : bool) (sig : list (string * bool))
    (st : gmap string bool * list string) : gmap string bool * list string :=
  foldl (fun st ep => edgeStep guard ep.1 ep.2 st) st sig.

(** The events whose memory the swap guard protects. *)
Definition isGuarded (e : string) : bool :=
  String.eqb e "back" || String.eqb e "confirm".

(** [btns[i]?.pressed || false] as a value. *)
Definition buttonPressed (btns : list (option GamepadButton)) (i : nat) : bool :=
  truthy (match btns !! i with
          | Some (Some btn) => pressed btn
          | _ => None
          end).

(** The buffer a poll leaves for a gamepad whose two arrays exist. *)
Definition sampledWith (btns : list (option GamepadButton))
    (axs : list AxisValue) (ks : gmap string bool) : Buf.t :=
  Buf.mk
    (truthy (ks !! "ArrowUp") || (buttonPressed btns 12 || jsLt (axs !! 1%nat) (-1 # 2)))
    (truthy (ks !! "ArrowDown") || (buttonPressed btns 13 || jsGt (axs !! 1%nat) (1 # 2)))
    (truthy (ks !! "ArrowLeft") || (buttonPressed btns 14 || jsLt (axs !! 0%nat) (-1 # 2)))
    (truthy (ks !! "ArrowRight") || (buttonPressed btns 15 || jsGt (axs !! 0%nat) (1 # 2)))
    (buttonPressed btns 0) (buttonPressed btns 1)
    (buttonPressed btns 2) (buttonPressed btns 3)
    (buttonPressed btns 9) (buttonPressed btns 8).

(** The buffer a poll leaves when slot 0 holds no gamepad. *)
Definition sampledWithout (ks : gmap string bool) : Buf.t :=
  Buf.mk
    (truthy (ks !! "ArrowUp")) (truthy (ks !! "ArrowDown"))
    (truthy (ks !! "ArrowLeft")) (truthy (ks !! "ArrowRight"))
    false false false false false false.

(** ** Sample worlds *)

(** A button object with an explicit [pressed]. *)
Definition pressedButton (p : bool) : option GamepadButton :=
  Some {| pressed := Some p |}.

(** A standard 16-button pad with exactly the buttons [down] pressed. *)
Definition padWith (down : list nat) (axs : list AxisValue) : Gamepad :=
  {| buttons := Some (map (fun i => pressedButton (bool_decide (i ∈ down))) (seq 0 16));
     axes := Some axs |}.

(** UI mode, button 0 held, one poll done: "confirm" was emitted and its
    edge memory is set. *)
Definition heldConfirmWorld : World :=
  (poll (newWorld false (Some (padWith [0%nat] [])))).2.

(** GAME mode with button 0 and the up arrow key held. *)
Definition gameWorld : World :=
  handleKey "ArrowUp" "keydown"
    (setMode (JsString "GAME") (newWorld false (Some (padWith [0%nat] [])))).

(** UI mode, button 1 held, one poll done: "back" was emitted and its edge
    memory is set. *)
Definition heldBackWorld : World :=
  (poll (newWorld false (Some (padWith [1%nat] [])))).2.

(** A pad that reports no button entry and no axis value at all. *)
Definition emptyPad : Gamepad := {| buttons := Some []; axes := Some [] |}.

(** ** Vocabulary of the further properties *)

(** The same world with the cached swap flag inverted. *)
Definition flipSwap (w : World) : World :=
  onThis (fun s => set_swapButtons (negb (swapButtons s)) s) w.


(** Rising edges in a sequence of readings that follows the reading
    [prev]. *)
Fixpoint risingEdges (prev : bool) (rs : list bool) : nat :=
  match rs with
  | [] => 0%nat
  | r :: rs' => ((if r && negb prev then 1 else 0) + risingEdges r rs')%nat
  end.

(** The reading of event [e]'s input in each frame of a run. *)
Fixpoint readingsOf (e : string) (fs : list (list Notification)) (w : World)
  : list (option bool) :=
  match fs with
  | [] => []
  | ns :: fs' => navReading e (notifyAll ns w) :: readingsOf e fs' (frame ns w).2
  end.

(** No assignment to the store's [swapButtons] among the notifications. *)
Definition noSwap (ns : list Notification) : bool :=
  forallb (fun n => match n with SwapAssigned _ => false | _ => true end) ns.

(** Every pending animation-frame handle was handed out earlier. *)
Definition handlesIssued (w : World) : Prop :=
  Forall (fun h => (h <= rafLast w)%nat) (rafQueue w).

(** A watcher is registered and the cached flag equals the store's. *)
Definition cacheCoherent (w : World) : Prop :=
  (1 <= swapWatchers w)%nat /\ swapButtons (this w) = storeSwapButtons w.

(** What a poll never changes: the inputs it reads, the configuration and
    everything about the frame driver and the window. *)
Definition pollKeeps (w w' : World) : Prop :=
  gamepad0 w' = gamepad0 w
  /\ keys (this w') = keys (this w)
  /\ swapButtons (this w') = swapButtons (this w)
  /\ inputMode (this w') = inputMode (this w)
  /\ isAndroid (this w') = isAndroid (this w)
  /\ _justSwapped (this w') = _justSwapped (this w)
  /\ loopId (this w') = loopId (this w)
  /\ active (this w') = active (this w)
  /\ rafQueue w' = rafQueue w
  /\ rafLast w' = rafLast w
  /\ storeSwapButtons w' = storeSwapButtons w
  /\ swapWatchers w' = swapWatchers w
  /\ keydownBound w' = keydownBound w
  /\ keyupBound w' = keyupBound w.

(** * Properties *)

(** ** The sampler in closed form *)

Lemma sampleInto_none ks b : sampleInto None ks b = (Normal tt, sampledWithout ks).
Proof.
  unfold sampleInto, resetGamepad, sampleKeyboard, sampledWithout, bind, lift, when, ret.
  cbn.
  destruct (truthy (ks !! "ArrowUp")), (truthy (ks !! "ArrowDown")),
    (truthy (ks !! "ArrowLeft")), (truthy (ks !! "ArrowRight")); reflexivity.
Qed.

Lemma hybrid_some {S} btns i axs j cmp (s : S) :
  hybrid (Some btns) i (Some axs) j cmp s = (Normal (buttonPressed btns i || cmp (axs !! j)), s).
Proof.
  unfold hybrid, pressedAt, axisAt, bind, ret, buttonPressed.
  destruct (truthy _); cbn; [reflexivity|]. by rewrite orb_false_r.
Qed.
Lemma face_some {S} btns i (s : S) :
  face (Some btns) i s = (Normal (buttonPressed btns i), s).
Proof.
  unfold face, pressedAt, bind, ret, buttonPressed. by rewrite orb_false_r.
Qed.

Lemma sampleInto_some btns axs ks b :
  sampleInto (Some {| buttons := Some btns; axes := Some axs |}) ks b
  = (Normal tt, sampledWith btns axs ks).
Proof.
  unfold sampleInto, sampleGamepad, sampleKeyboard, sampledWith, bind, lift, when.
  cbn [buttons axes].
  rewrite !face_some, !hybrid_some. cbn.
  destruct (truthy (ks !! "ArrowUp")), (truthy (ks !! "ArrowDown")),
    (truthy (ks !! "ArrowLeft")), (truthy (ks !! "ArrowRight")); reflexivity.
Qed.

(** ** Unfolding [sample] and [poll] *)

Lemma sample_unfold w :
  sample w =
  ((sampleInto (gamepad0 w) (keys (this w)) (_inputBuffer (this w))).1,
   onThis (set_inputBuffer (sampleInto (gamepad0 w) (keys (this w)) (_inputBuffer (this w))).2) w).
Proof.
  unfold sample, bind, get, onBuffer.
  by destruct (sampleInto _ _ _).
Qed.

(** A completed sample differs from the world it started in by the
    buffer only. *)
Lemma sample_normal w ws :
  sample w = (Normal tt, ws) ->
  this ws = set_inputBuffer (_inputBuffer (this ws)) (this w)
  /\ emitted ws = emitted w
  /\ pico8_buttons ws = pico8_buttons w.
Proof. rewrite sample_unfold. by intros [= _ <-]. Qed.

Lemma poll_unfold w :
  poll w =
  match sample w with
  | (Normal _, ws) =>
      (Normal tt, if String.eqb (inputMode (this w)) "GAME" then pollGame ws else pollUI ws)
  | (Throw e, ws) => (Throw e, ws)
  end.
Proof.
  unfold poll, bind, get. rewrite sample_unfold.
  destruct (sampleInto _ _ _) as [[[]|e] b]; cbn; [|reflexivity].
  by destruct (String.eqb _ _).
Qed.

(** ** The GAME branch *)

Lemma testbit_small (m : Z) (i : Z) : 0 <= m < 64 -> 6 <= i -> Z.testbit m i = false.
Proof.
  intros [H0 H1] Hi.
  destruct (Z.eq_dec m 0) as [->|Hne]; [apply Z.bits_0|].
  apply Z.bits_above_log2; [lia|].
  assert (Z.log2 m < 6); [|lia].
  apply Z.log2_lt_pow2; lia.
Qed.

Lemma existsb_primary w :
  existsb (sourceActive w) primarySources
  = Buf.a (_inputBuffer (this w)) || Buf.y (_inputBuffer (this w)) || keysZCN w.
Proof.
  unfold primarySources, keysZCN. cbn [existsb sourceActive].
  by rewrite orb_false_r, !orb_assoc.
Qed.
Lemma existsb_secondary w :
  existsb (sourceActive w) secondarySources
  = Buf.b (_inputBuffer (this w)) || Buf.x (_inputBuffer (this w)) || keysXVM w.
Proof.
  unfold secondarySources, keysXVM. cbn [existsb sourceActive].
  by rewrite orb_false_r, !orb_assoc.
Qed.

Lemma gameMask_bits w :
  let buf := _inputBuffer (this w) in
  let mask := gameMask w in
  Z.testbit mask 0 = Buf.left buf /\ Z.testbit mask 1 = Buf.right buf
  /\ Z.testbit mask 2 = Buf.up buf /\ Z.testbit mask 3 = Buf.down buf
  /\ Z.testbit mask 4 = existsb (sourceActive w) (oSources (swapButtons (this w)))
  /\ Z.testbit mask 5 = existsb (sourceActive w) (xSources (swapButtons (this w)))
  /\ 0 <= mask < 64.
Proof.
  unfold gameMask, oSources, xSources.
  assert (Ho : forall c : bool, existsb (sourceActive w) (if c then secondarySources else primarySources)
     = if c then existsb (sourceActive w) secondarySources else existsb (sourceActive w) primarySources)
    by (by intros []).
  assert (Hx : forall c : bool, existsb (sourceActive w) (if c then primarySources else secondarySources)
     = if c then existsb (sourceActive w) primarySources else existsb (sourceActive w) secondarySources)
    by (by intros []).
  rewrite Ho, Hx, existsb_primary, existsb_secondary. clear Ho Hx.
  generalize (Buf.a (_inputBuffer (this w)) || Buf.y (_inputBuffer (this w)))
    (Buf.b (_inputBuffer (this w)) || Buf.x (_inputBuffer (this w)))
    (keysZCN w) (keysXVM w) (Buf.left (_inputBuffer (this w)))
    (Buf.right (_inputBuffer (this w))) (Buf.up (_inputBuffer (this w)))
    (Buf.down (_inputBuffer (this w))).
  intros ay bx kO kX l r u d.
  destruct (swapButtons (this w)), ay, bx, kO, kX, l, r, u, d; vm_compute;
    repeat split; (reflexivity || discriminate).
Qed.

(** [emitChange] only rewrites the edge memory and the event record. *)
Lemma withEdge_id w : withEdge (lastButtonState (this w)) (emitted w) w = w.
Proof. by destruct w as [[] ?]. Qed.

Lemma emitChange_edge e p w :
  emitChange e p w =
  withEdge (edgeStep (_justSwapped (this w)) e p (lastButtonState (this w), emitted w)).1
           (edgeStep (_justSwapped (this w)) e p (lastButtonState (this w), emitted w)).2 w.
Proof.
  unfold emitChange, edgeStep, wasPressed. cbn [fst snd].
  destruct p.
  - destruct (negb _); [reflexivity|]. cbn [fst snd]. by rewrite withEdge_id.
  - destruct (_ && _); [|reflexivity]. cbn [fst snd]. by rewrite withEdge_id.
Qed.

Lemma emitOnce_emitChange e w : emitOnce e w = emitChange e true w.
Proof. reflexivity. Qed.

Lemma pollGame_unfold w :
  pollGame w =
  writeButtons (gameMask w)
    (withEdge (edgeStep false "menu" (menuTriggered w) (lastButtonState (this w), emitted w)).1
              (edgeStep false "menu" (menuTriggered w) (lastButtonState (this w), emitted w)).2 w).
Proof.
  unfold pollGame. destruct (menuTriggered w) eqn:Hm.
  - rewrite emitOnce_emitChange, emitChange_edge. reflexivity.
  - reflexivity.
Qed.

Lemma writeButtons_this v w : this (writeButtons v w) = this w.
Proof. unfold writeButtons. by destruct (pico8_buttons w). Qed.
Lemma writeButtons_emitted v w : emitted (writeButtons v w) = emitted w.
Proof. unfold writeButtons. by destruct (pico8_buttons w). Qed.
Lemma writeButtons_pico v w :
  pico8_buttons (writeButtons v w) = assign0 v <$> pico8_buttons w.
Proof. unfold writeButtons. by destruct (pico8_buttons w) eqn:H. Qed.

Lemma pollGame_pico w :
  pico8_buttons (pollGame w) = assign0 (gameMask w) <$> pico8_buttons w.
Proof. by rewrite pollGame_unfold, writeButtons_pico. Qed.

Lemma pollGame_this w :
  this (pollGame w)
  = set_lastButtonState
      (edgeStep false "menu" (menuTriggered w) (lastButtonState (this w), emitted w)).1
      (this w).
Proof. by rewrite pollGame_unfold, writeButtons_this. Qed.

Lemma pollGame_emitted w :
  emitted (pollGame w)
  = (edgeStep false "menu" (menuTriggered w) (lastButtonState (this w), emitted w)).2.
Proof. by rewrite pollGame_unfold, writeButtons_emitted. Qed.

Lemma assign0_lookup v arr : assign0 v arr !! 0%nat = Some v.
Proof. by destruct arr. Qed.

(** C1.  A poll that completes in GAME mode stores in slot 0 of
    [window.pico8_buttons] (when the array exists) a mask whose bits 0-3
    are the sampled left, right, up and down flags, whose bit 4 (16) is set
    iff some O source is active under the current swap flag, whose bit 5
    (32) is set iff some X source is active, and whose other bits are
    clear. *)
Theorem gameplay_mask_bits (w w' : World) :
  inputMode (this w) = "GAME" ->
  poll w = (Normal tt, w') ->
  exists mask : Z,
    pico8_buttons w' = assign0 mask <$> pico8_buttons w
    /\ (forall arr, pico8_buttons w' = Some arr -> arr !! 0%nat = Some mask)
    /\ Z.testbit mask 0 = Buf.left (_inputBuffer (this w'))
    /\ Z.testbit mask 1 = Buf.right (_inputBuffer (this w'))
    /\ Z.testbit mask 2 = Buf.up (_inputBuffer (this w'))
    /\ Z.testbit mask 3 = Buf.down (_inputBuffer (this w'))
    /\ Z.testbit mask 4 = existsb (sourceActive w') (oSources (swapButtons (this w')))
    /\ Z.testbit mask 5 = existsb (sourceActive w') (xSources (swapButtons (this w')))
    /\ (forall i, 6 <= i -> Z.testbit mask i = false).
Proof.
  intros Hmode Hpoll. rewrite poll_unfold, Hmode in Hpoll.
  destruct (sample w) as [[[]|err] ws] eqn:Hs; [|discriminate].
  cbn [String.eqb Ascii.eqb Bool.eqb] in Hpoll.
  injection Hpoll as <-.
  destruct (sample_normal w ws Hs) as (_ & _ & Hp).
  destruct (gameMask_bits ws) as (H0 & H1 & H2 & H3 & H4 & H5 & Hlt).
  exists (gameMask ws).
  assert (Hsrc : forall l, existsb (sourceActive (pollGame ws)) l
                           = existsb (sourceActive ws) l).
  { intros l. induction l as [|src l IH]; [reflexivity|]. cbn [existsb].
    rewrite IH. f_equal. destruct src; unfold sourceActive, keyHeld; by rewrite pollGame_this. }
  rewrite !Hsrc, pollGame_pico, pollGame_this, Hp. cbn [_inputBuffer swapButtons set_lastButtonState].
  split; [reflexivity|]. split.
  { intros arr Harr. destruct (pico8_buttons w); [|discriminate].
    injection Harr as <-. apply assign0_lookup. }
  repeat (split; [assumption|]). intros i Hi. by apply testbit_small.
Qed.

(** ** The UI branch *)

Lemma pollUI_unfold w :
  pollUI w =
  withEdge (edgeRun (_justSwapped (this w)) (uiSignals w) (lastButtonState (this w), emitted w)).1
           (edgeRun (_justSwapped (this w)) (uiSignals w) (lastButtonState (this w), emitted w)).2 w.
Proof.
  unfold pollUI. cbv zeta.
  rewrite (emitChange_edge "nav-up").
  rewrite (emitChange_edge "nav-down").
  rewrite (emitChange_edge "nav-left").
  rewrite (emitChange_edge "nav-right").
  rewrite (emitChange_edge "confirm").
  rewrite (emitChange_edge "back").
  cbn [withEdge this lastButtonState emitted _justSwapped set_emitted onThis
       set_lastButtonState].
  rewrite <- !surjective_pairing. reflexivity.
Qed.

Lemma pollUI_this w :
  this (pollUI w)
  = set_lastButtonState
      (edgeRun (_justSwapped (this w)) (uiSignals w) (lastButtonState (this w), emitted w)).1
      (this w).
Proof. by rewrite pollUI_unfold. Qed.

Lemma pollUI_emitted w :
  emitted (pollUI w)
  = (edgeRun (_justSwapped (this w)) (uiSignals w) (lastButtonState (this w), emitted w)).2.
Proof. by rewrite pollUI_unfold. Qed.

(** What a completed poll leaves in the buffer. *)
Lemma poll_buffer w w' :
  poll w = (Normal tt, w') ->
  sampleInto (gamepad0 w) (keys (this w)) (_inputBuffer (this w))
  = (Normal tt, _inputBuffer (this w'))
  /\ keys (this w') = keys (this w)
  /\ swapButtons (this w') = swapButtons (this w)
  /\ inputMode (this w') = inputMode (this w).
Proof.
  rewrite poll_unfold, sample_unfold.
  destruct (sampleInto _ _ _) as [[[]|err] b]; [|discriminate].
  cbn [fst snd]. intros [= <-].
  destruct (String.eqb _ _); [rewrite pollGame_this|rewrite pollUI_this]; done.
Qed.

Lemma poll_completes w b :
  sampleInto (gamepad0 w) (keys (this w)) (_inputBuffer (this w)) = (Normal tt, b) ->
  exists w', poll w = (Normal tt, w').
Proof.
  intros H. rewrite poll_unfold, sample_unfold, H. eauto.
Qed.

(** C6.  When slot 0 holds no gamepad the poll completes and the fresh
    sample has [a], [b], [x], [y], [start] and [select] false and each
    direction flag equal to its arrow key, whatever the buffer held
    before. *)
Theorem no_gamepad_flags_false (w : World) :
  gamepad0 w = None ->
  exists w', poll w = (Normal tt, w')
    /\ let buf := _inputBuffer (this w') in
       Buf.a buf = false /\ Buf.b buf = false /\ Buf.x buf = false
       /\ Buf.y buf = false /\ Buf.start buf = false /\ Buf.select buf = false
       /\ Buf.up buf = keyHeld w "ArrowUp"
       /\ Buf.down buf = keyHeld w "ArrowDown"
       /\ Buf.left buf = keyHeld w "ArrowLeft"
       /\ Buf.right buf = keyHeld w "ArrowRight".
Proof.
  intros Hgp.
  destruct (poll_completes w (sampledWithout (keys (this w)))) as [w' Hw'].
  { rewrite Hgp. apply sampleInto_none. }
  exists w'. split; [exact Hw'|].
  apply poll_buffer in Hw' as (Hb & _). rewrite Hgp, sampleInto_none in Hb.
  injection Hb as <-. cbn. unfold keyHeld. done.
Qed.

(** ** Edge detection *)

Lemma occurrences_app e l1 l2 :
  occurrences e (l1 ++ l2) = (occurrences e l1 + occurrences e l2)%nat.
Proof. unfold occurrences. by rewrite filter_app, length_app. Qed.
Lemma occurrences_singleton e e0 :
  occurrences e [e0] = if decide (e0 = e) then 1%nat else 0%nat.
Proof. unfold occurrences. rewrite filter_cons. by case_decide. Qed.

Lemma edgeStep_split g e p m l :
  edgeStep g e p (m, l)
  = ((edgeStep g e p (m, [])).1, l ++ (edgeStep g e p (m, [])).2).
Proof.
  unfold edgeStep. cbn [fst snd].
  destruct p; [destruct (negb _)|destruct (_ && _)]; cbn [fst snd];
    by rewrite ?app_nil_r.
Qed.

(** The effect of one [emitChange e0 p0] on the memory of [e] and on the
    number of [e] events. *)
Lemma edgeStep_at g e p m :
  truthy ((edgeStep g e p (m, [])).1 !! e)
  = (if p then true else if g && isGuarded e then truthy (m !! e) else false)
  /\ occurrences e (edgeStep g e p (m, [])).2
     = if p && negb (truthy (m !! e)) then 1%nat else 0%nat.
Proof.
  unfold edgeStep, isGuarded. cbn [fst snd].
  destruct p; cbn [andb].
  - destruct (truthy (m !! e)) eqn:Hm; cbn [negb fst snd].
    + by rewrite Hm.
    + rewrite lookup_insert_eq, app_nil_l, occurrences_singleton. by case_decide.
  - destruct (g && _); cbn [fst snd]; [done|]. by rewrite lookup_insert_eq.
Qed.

Lemma edgeStep_other g e0 p m e :
  e0 <> e ->
  (edgeStep g e0 p (m, [])).1 !! e = m !! e
  /\ occurrences e (edgeStep g e0 p (m, [])).2 = 0%nat.
Proof.
  intros Hne. unfold edgeStep. cbn [fst snd].
  destruct p; [destruct (negb _)|destruct (_ && _)]; cbn [fst snd];
    rewrite ?app_nil_l, ?lookup_insert_ne, ?occurrences_singleton by done;
    try case_decide; done.
Qed.

Lemma edgeRun_cons g e0 p0 sig m l :
  edgeRun g ((e0, p0) :: sig) (m, l)
  = edgeRun g sig ((edgeStep g e0 p0 (m, [])).1, l ++ (edgeStep g e0 p0 (m, [])).2).
Proof. unfold edgeRun. cbn [foldl fst snd]. by rewrite edgeStep_split. Qed.

Lemma edgeRun_spec (g : bool) (sig : list (string * bool)) :
  NoDup sig.*1 ->
  forall (m : gmap string bool) (l : list string) (e : string),
  exists evs,
    (edgeRun g sig (m, l)).2 = l ++ evs
    /\ match ((list_to_map sig : gmap string bool) !! e : option bool) with
       | Some p =>
           truthy ((edgeRun g sig (m, l)).1 !! e)
           = (if p then true else if g && isGuarded e then truthy (m !! e) else false)
           /\ occurrences e evs = if p && negb (truthy (m !! e)) then 1%nat else 0%nat
       | None =>
           (edgeRun g sig (m, l)).1 !! e = m !! e /\ occurrences e evs = 0%nat
       end.
Proof.
  induction sig as [|[e0 p0] sig IH]; intros Hnd m l e.
  - exists []. rewrite app_nil_r. cbn. by rewrite lookup_empty.
  - apply NoDup_cons in Hnd as [Hnotin Hnd]. cbn [fmap list_fmap fst] in Hnotin.
    rewrite edgeRun_cons.
    destruct (IH Hnd (edgeStep g e0 p0 (m, [])).1 (l ++ (edgeStep g e0 p0 (m, [])).2) e)
      as (evs & Hlog & Hat).
    exists ((edgeStep g e0 p0 (m, [])).2 ++ evs).
    split; [by rewrite Hlog, app_assoc|].
    rewrite occurrences_app. cbn [list_to_map foldr fst snd].
    destruct (decide (e0 = e)) as [->|Hne].
    + rewrite lookup_insert_eq.
      assert (Hnone : list_to_map (M := gmap string bool) sig !! e = None)
        by (by apply not_elem_of_list_to_map_1).
      rewrite Hnone in Hat. destruct Hat as [Hm Hc].
      rewrite Hm, Hc, Nat.add_0_r. apply edgeStep_at.
    + rewrite lookup_insert_ne by done.
      destruct (edgeStep_other g e0 p0 m e Hne) as [Hm Hc].
      rewrite Hc, Hm in *. exact Hat.
Qed.

Lemma uiSignals_NoDup w : NoDup (uiSignals w).*1.
Proof. cbn. by apply (bool_decide_unpack _). Qed.

Lemma elem_of_navEvents e :
  e ∈ navEvents ->
  forall w, exists p, (list_to_map (uiSignals w) : gmap string bool) !! e = Some p.
Proof.
  unfold navEvents. intros He w.
  repeat (apply elem_of_cons in He as [->|He]; [eexists; reflexivity|]).
  by apply elem_of_nil in He.
Qed.

Lemma eventsSince_app w w' evs :
  emitted w' = emitted w ++ evs -> eventsSince w w' = evs.
Proof. unfold eventsSince. intros ->. by rewrite drop_app_length. Qed.

(** The UI branch never emits anything but the six navigation events and
    leaves the memory of every other name alone. *)
Lemma poll_UI_other (e : string) (w w' : World) :
  e ∉ navEvents ->
  String.eqb (inputMode (this w)) "GAME" = false ->
  poll w = (Normal tt, w') ->
  lastButtonState (this w') !! e = lastButtonState (this w) !! e
  /\ occurrences e (eventsSince w w') = 0%nat.
Proof.
  intros He Hmode Hpoll.
  rewrite poll_unfold, Hmode in Hpoll.
  destruct (sample w) as [[[]|err] ws] eqn:Hs; [|discriminate].
  injection Hpoll as <-.
  destruct (sample_normal w ws Hs) as (Hthis & Hem & _).
  destruct (edgeRun_spec (_justSwapped (this ws)) (uiSignals ws) (uiSignals_NoDup ws)
              (lastButtonState (this ws)) (emitted ws) e) as (evs & Hlog & Hat).
  assert (Hnone : (list_to_map (uiSignals ws) : gmap string bool) !! e = None).
  { apply not_elem_of_list_to_map_1. exact He. }
  rewrite Hnone in Hat. destruct Hat as [Hm Hc].
  rewrite pollUI_this. cbn [lastButtonState set_lastButtonState].
  rewrite (eventsSince_app w (pollUI ws) evs) by (by rewrite pollUI_emitted, Hlog, Hem).
  rewrite Hm, Hthis. done.
Qed.


(** ** Mode control *)

Lemma wasPressed_cleared (w : World) (e : string) :
  lastButtonState (this w) = clearedButtonState -> wasPressed w e = false.
Proof.
  intros H. unfold wasPressed. rewrite H. unfold clearedButtonState.
  repeat (rewrite lookup_insert; case_decide; [reflexivity|]).
  by rewrite lookup_empty.
Qed.

Lemma writeButtons_gamepad0 v w : gamepad0 (writeButtons v w) = gamepad0 w.
Proof. unfold writeButtons. by destruct (pico8_buttons w). Qed.

Lemma setMode_valid (m : string) (w : World) :
  m = "UI" \/ m = "GAME" ->
  this (setMode (JsString m) w)
  = set_lastButtonState clearedButtonState (set_inputMode m (this w))
  /\ emitted (setMode (JsString m) w) = emitted w
  /\ gamepad0 (setMode (JsString m) w) = gamepad0 w
  /\ pico8_buttons (setMode (JsString m) w)
     = if String.eqb m "UI" then assign0 0 <$> pico8_buttons w else pico8_buttons w.
Proof.
  intros [-> | ->]; unfold setMode; cbn [isMode String.eqb Ascii.eqb Bool.eqb orb].
  - by rewrite writeButtons_this, writeButtons_emitted, writeButtons_pico,
      writeButtons_gamepad0.
  - done.
Qed.

(** C7.  [setMode] accepts exactly the strings "UI" and "GAME"; for any
    other argument the call returns the world unchanged (mode, edge
    memory, button slot and everything else), and it has no way to
    raise. *)
Theorem setMode_rejects_other_values :
  (forall w, inputMode (this (setMode (JsString "UI") w)) = "UI")
  /\ (forall w, inputMode (this (setMode (JsString "GAME") w)) = "GAME")
  /\ (forall mode w,
        mode <> JsString "UI" -> mode <> JsString "GAME" -> setMode mode w = w).
Proof.
  split; [|split].
  - intros w. by destruct (setMode_valid "UI" w) as [-> _]; [left|].
  - intros w. by destruct (setMode_valid "GAME" w) as [-> _]; [right|].
  - intros mode w Hui Hgame. unfold setMode, isMode.
    destruct mode as [| | | |s]; try reflexivity.
    destruct (String.eqb_spec s "UI") as [->|_]; [done|].
    destruct (String.eqb_spec s "GAME") as [->|_]; done.
Qed.

Lemma setMode_rejects_other_values_witness :
  JsNumber 3 <> JsString "UI" /\ JsNumber 3 <> JsString "GAME"
  /\ setMode (JsNumber 3) (newWorld false None) = newWorld false None.
Proof.
  split; [discriminate|]. split; [discriminate|].
  apply (proj2 (proj2 setMode_rejects_other_values)); discriminate.
Defined.

(** C9.  [setMode] with a valid mode equal to the current one is not a
    no-op: the edge memory is replaced by the cleared table, so every
    event reads not-pressed, and for "UI" slot 0 of [window.pico8_buttons]
    becomes 0; a world with some edge memory set is therefore changed. *)
Theorem setMode_same_mode_resets (m : string) (w : World) :
  m = "UI" \/ m = "GAME" ->
  inputMode (this w) = m ->
  let w' := setMode (JsString m) w in
  lastButtonState (this w') = clearedButtonState
  /\ (forall e, wasPressed w' e = false)
  /\ (m = "UI" ->
      pico8_buttons w' = assign0 0 <$> pico8_buttons w
      /\ forall arr, pico8_buttons w' = Some arr -> arr !! 0%nat = Some 0)
  /\ ((exists e, wasPressed w e = true) -> w' <> w).
Proof.
  intros Hm Hmode. cbv zeta.
  destruct (setMode_valid m w Hm) as (Hthis & _ & _ & Hpico).
  assert (Hmem : lastButtonState (this (setMode (JsString m) w)) = clearedButtonState)
    by (by rewrite Hthis).
  split; [exact Hmem|]. split; [intros e; by apply wasPressed_cleared|]. split.
  - intros ->. cbn [String.eqb Ascii.eqb Bool.eqb] in Hpico. split; [exact Hpico|].
    intros arr Harr. rewrite Hpico in Harr.
    destruct (pico8_buttons w); [|discriminate]. injection Harr as <-.
    apply assign0_lookup.
  - intros [e He] Heq. rewrite (wasPressed_cleared w e) in He; [discriminate|].
    by rewrite <- Heq.
Qed.

Lemma setMode_same_mode_resets_witness :
  let w := emitChange "confirm" true (newWorld false None) in
  inputMode (this w) = "UI"
  /\ wasPressed w "confirm" = true
  /\ wasPressed (setMode (JsString "UI") w) "confirm" = false
  /\ setMode (JsString "UI") w <> w.
Proof.
  intros w.
  pose proof (setMode_same_mode_resets "UI" w (or_introl eq_refl) eq_refl)
    as (_ & Hclear & _ & Hne).
  split; [reflexivity|]. split; [by vm_compute|]. split; [apply Hclear|].
  apply Hne. exists "confirm". by vm_compute.
Defined.

(** ** Shutdown *)

(** C10.  [destroy] cancels the pending frame, detaches both key
    handlers and clears [active]; the mode, the edge memory, the cached
    swap flag, the key table, the buffer and [window.pico8_buttons] (with
    its last written mask) are what they were. *)
Theorem destroy_keeps_input_state (w : World) :
  let w' := destroy w in
  (* what it does *)
  active (this w') = false
  /\ keydownBound w' = false /\ keyupBound w' = false
  /\ loopId (this w') = (if loopRunning w then None else loopId (this w))
  /\ rafQueue w'
     = (if loopRunning w
        then filter (fun h => h <> default 0%nat (loopId (this w))) (rafQueue w)
        else rafQueue w)
  (* what it leaves alone *)
  /\ inputMode (this w') = inputMode (this w)
  /\ lastButtonState (this w') = lastButtonState (this w)
  /\ swapButtons (this w') = swapButtons (this w)
  /\ _justSwapped (this w') = _justSwapped (this w)
  /\ isAndroid (this w') = isAndroid (this w)
  /\ keys (this w') = keys (this w)
  /\ _inputBuffer (this w') = _inputBuffer (this w)
  /\ pico8_buttons w' = pico8_buttons w
  /\ gamepad0 w' = gamepad0 w
  /\ storeSwapButtons w' = storeSwapButtons w
  /\ swapWatchers w' = swapWatchers w
  /\ rafLast w' = rafLast w
  /\ emitted w' = emitted w.
Proof.
  unfold destroy. destruct (loopRunning w) eqn:Hrun; cbn; repeat split.
Qed.

(** ** Missing hardware fields *)

Lemma buttonPressed_missing btns i : missingButton btns i -> buttonPressed btns i = false.
Proof.
  unfold missingButton, buttonPressed.
  destruct (btns !! i) as [[btn|]|]; [|done..]. by intros ->.
Qed.

(** C8.  For a gamepad whose [buttons] and [axes] arrays exist, the poll
    completes without raising, and a button entry without a [pressed]
    value, or an axis index without a value, contributes nothing: the
    face flag is false, a direction flag is what its other sources give. *)
Theorem missing_fields_read_not_pressed (w : World) (gp : Gamepad)
    (btns : list (option GamepadButton)) (axs : list AxisValue) :
  gamepad0 w = Some gp -> buttons gp = Some btns -> axes gp = Some axs ->
  exists w', poll w = (Normal tt, w')
    /\ let buf := _inputBuffer (this w') in
       (missingButton btns 0 -> Buf.a buf = false)
       /\ (missingButton btns 1 -> Buf.b buf = false)
       /\ (missingButton btns 2 -> Buf.x buf = false)
       /\ (missingButton btns 3 -> Buf.y buf = false)
       /\ (missingButton btns 8 -> Buf.select buf = false)
       /\ (missingButton btns 9 -> Buf.start buf = false)
       /\ (missingButton btns 12 ->
           Buf.up buf = keyHeld w "ArrowUp" || jsLt (axs !! 1%nat) (-1 # 2))
       /\ (missingButton btns 13 ->
           Buf.down buf = keyHeld w "ArrowDown" || jsGt (axs !! 1%nat) (1 # 2))
       /\ (missingButton btns 14 ->
           Buf.left buf = keyHeld w "ArrowLeft" || jsLt (axs !! 0%nat) (-1 # 2))
       /\ (missingButton btns 15 ->
           Buf.right buf = keyHeld w "ArrowRight" || jsGt (axs !! 0%nat) (1 # 2))
       /\ (axs !! 1%nat = None ->
           Buf.up buf = keyHeld w "ArrowUp" || buttonPressed btns 12
           /\ Buf.down buf = keyHeld w "ArrowDown" || buttonPressed btns 13)
       /\ (axs !! 0%nat = None ->
           Buf.left buf = keyHeld w "ArrowLeft" || buttonPressed btns 14
           /\ Buf.right buf = keyHeld w "ArrowRight" || buttonPressed btns 15).
Proof.
  intros Hgp Hb Ha.
  assert (Hs : sampleInto (gamepad0 w) (keys (this w)) (_inputBuffer (this w))
               = (Normal tt, sampledWith btns axs (keys (this w)))).
  { rewrite Hgp. destruct gp as [b a]. cbn in Hb, Ha. subst b a. apply sampleInto_some. }
  destruct (poll_completes w _ Hs) as [w' Hw']. exists w'. split; [exact Hw'|].
  apply poll_buffer in Hw' as (Hbuf & _). rewrite Hs in Hbuf. injection Hbuf as <-.
  unfold sampledWith, keyHeld. cbn.
  repeat split; try (intros Hm; rewrite (buttonPressed_missing _ _ Hm); done);
    match goal with
    | H : _ !! _ = None |- _ => rewrite H; cbn [jsLt jsGt]; by rewrite orb_false_r
    end.
Qed.

(** ** Frames *)

(** A completed sample does not depend on what the buffer held. *)
Lemma sampleInto_indep gp ks b1 b2 b :
  sampleInto gp ks b1 = (Normal tt, b) -> sampleInto gp ks b2 = (Normal tt, b).
Proof.
  destruct gp as [[[btns|] [axs|]]|].
  - rewrite !sampleInto_some. done.
  - unfold sampleInto, sampleGamepad, sampleKeyboard, bind, lift, when.
    cbn [buttons axes]. rewrite !face_some.
    unfold hybrid, pressedAt, axisAt, bind, ret, throw.
    destruct (truthy match btns !! 12%nat with Some (Some btn) => pressed btn | _ => None end);
      [|discriminate].
    destruct (truthy match btns !! 13%nat with Some (Some btn) => pressed btn | _ => None end);
      [|discriminate].
    destruct (truthy match btns !! 14%nat with Some (Some btn) => pressed btn | _ => None end);
      [|discriminate].
    destruct (truthy match btns !! 15%nat with Some (Some btn) => pressed btn | _ => None end);
      [|discriminate].
    destruct (truthy (ks !! "ArrowUp")), (truthy (ks !! "ArrowDown")),
      (truthy (ks !! "ArrowLeft")), (truthy (ks !! "ArrowRight")); cbn; done.
  - discriminate.
  - discriminate.
  - rewrite !sampleInto_none. done.
Qed.

Lemma uiSignals_ext w1 w2 :
  _inputBuffer (this w1) = _inputBuffer (this w2) ->
  keys (this w1) = keys (this w2) ->
  swapButtons (this w1) = swapButtons (this w2) ->
  uiSignals w1 = uiSignals w2.
Proof.
  intros Hb Hk Hs. unfold uiSignals, uiConfirm, uiBack, keyHeld.
  by rewrite Hb, Hk, Hs.
Qed.

Lemma navReading_ext e w1 w2 p :
  gamepad0 w1 = gamepad0 w2 ->
  keys (this w1) = keys (this w2) ->
  swapButtons (this w1) = swapButtons (this w2) ->
  navReading e w1 = Some p -> navReading e w2 = Some p.
Proof.
  intros Hg Hk Hs. unfold navReading. rewrite !sample_unfold.
  destruct (sampleInto (gamepad0 w1) _ _) as [[[]|err] b] eqn:H1; [|discriminate].
  rewrite Hg, Hk in H1. rewrite (sampleInto_indep _ _ _ (_inputBuffer (this w2)) _ H1).
  cbn [fst snd]. intros <-. do 2 f_equal. apply uiSignals_ext; cbn; congruence.
Qed.

Lemma navReading_completes e w p :
  navReading e w = Some p -> exists w', poll w = (Normal tt, w').
Proof.
  unfold navReading. rewrite poll_unfold.
  destruct (sample w) as [[[]|err] ws]; [eauto|discriminate].
Qed.

Lemma poll_frame w w' :
  poll w = (Normal tt, w') ->
  gamepad0 w' = gamepad0 w
  /\ keys (this w') = keys (this w)
  /\ swapButtons (this w') = swapButtons (this w)
  /\ inputMode (this w') = inputMode (this w)
  /\ isAndroid (this w') = isAndroid (this w)
  /\ _justSwapped (this w') = _justSwapped (this w).
Proof.
  rewrite poll_unfold, sample_unfold.
  destruct (sampleInto _ _ _) as [[[]|err] b]; [|discriminate].
  cbn [fst snd]. intros [= <-].
  destruct (String.eqb _ _).
  - rewrite pollGame_this, pollGame_unfold.
    unfold writeButtons. cbn. by destruct (pico8_buttons w).
  - rewrite pollUI_this, pollUI_unfold. done.
Qed.

Lemma loop_unfold w :
  loop w =
  match (if isAndroid (this w) then poll (onThis (set_justSwapped false) w)
         else (Normal tt, onThis (set_justSwapped false) w)) with
  | (Normal _, w2) =>
      match poll w2 with
      | (Normal _, w3) =>
          (Normal tt,
           onThis (set_loopId (Some (S (rafLast w3))))
             (set_raf (rafQueue w3 ++ [S (rafLast w3)]) (S (rafLast w3)) w3))
      | (Throw e, w3) => (Throw e, w3)
      end
  | (Throw e, w2) => (Throw e, w2)
  end.
Proof.
  unfold loop, bind, lift, get, when, requestAnimationFrame. cbn [this onThis isAndroid set_justSwapped].
  destruct (isAndroid (this w)); cbn.
  - destruct (poll _) as [[[]|e] w2]; [|reflexivity].
    destruct (poll w2) as [[[]|e] w3]; reflexivity.
  - destruct (poll _) as [[[]|e] w3]; reflexivity.
Qed.

Lemma poll_appends w w' :
  poll w = (Normal tt, w') -> exists evs, emitted w' = emitted w ++ evs.
Proof.
  rewrite poll_unfold, sample_unfold.
  destruct (sampleInto _ _ _) as [[[]|err] b]; [|discriminate].
  cbn [fst snd]. intros [= <-].
  destruct (String.eqb _ _).
  - rewrite pollGame_emitted, edgeStep_split. cbn [snd emitted onThis]. eauto.
  - rewrite pollUI_emitted.
    destruct (edgeRun_spec (_justSwapped (this (onThis (set_inputBuffer b) w)))
                (uiSignals (onThis (set_inputBuffer b) w))
                (uiSignals_NoDup _)
                (lastButtonState (this (onThis (set_inputBuffer b) w)))
                (emitted (onThis (set_inputBuffer b) w)) "") as (evs & -> & _).
    cbn [emitted onThis]. eauto.
Qed.

Lemma eventsSince_trans u1 u2 u3 a b :
  emitted u2 = emitted u1 ++ a -> emitted u3 = emitted u2 ++ b ->
  eventsSince u1 u3 = eventsSince u1 u2 ++ eventsSince u2 u3.
Proof.
  intros H2 H3.
  rewrite (eventsSince_app u1 u2 a H2), (eventsSince_app u2 u3 b H3).
  apply eventsSince_app. by rewrite H3, H2, app_assoc.
Qed.

(** ** Notifications between frames *)

Lemma onSwapButtons_frame v w :
  inputMode (this (onSwapButtons v w)) = inputMode (this w)
  /\ emitted (onSwapButtons v w) = emitted w
  /\ forall e, wasPressed w e = true -> wasPressed (onSwapButtons v w) e = true.
Proof.
  unfold onSwapButtons. cbn [this onThis inputMode set_swapButtons swapButtons].
  destruct (_ && _); [|done].
  split; [done|]. split; [done|]. intros e He. unfold wasPressed in *.
  cbn [this onThis lastButtonState set_lastButtonState set_justSwapped set_swapButtons].
  rewrite !lookup_insert. repeat case_decide; done.
Qed.

Lemma iter_onSwapButtons_frame v k w :
  inputMode (this (Nat.iter k (onSwapButtons v) w)) = inputMode (this w)
  /\ emitted (Nat.iter k (onSwapButtons v) w) = emitted w
  /\ forall e, wasPressed w e = true ->
       wasPressed (Nat.iter k (onSwapButtons v) w) e = true.
Proof.
  induction k as [|k (IHm & IHe & IHp)]; [done|].
  rewrite Nat.iter_succ.
  destruct (onSwapButtons_frame v (Nat.iter k (onSwapButtons v) w)) as (Hm & He & Hp).
  split; [congruence|]. split; [congruence|]. intros e H. by apply Hp, IHp.
Qed.

Lemma notify_frame n w :
  inputMode (this (notify n w)) = inputMode (this w)
  /\ emitted (notify n w) = emitted w
  /\ forall e, wasPressed w e = true -> wasPressed (notify n w) e = true.
Proof.
  destruct n as [key type|gp|v]; cbn [notify]; [done..|].
  unfold storeSetSwapButtons. destruct (Bool.eqb _ _); [done|].
  apply (iter_onSwapButtons_frame v (swapWatchers w) (set_storeSwapButtons v w)).
Qed.

Lemma notifyAll_frame ns w :
  inputMode (this (notifyAll ns w)) = inputMode (this w)
  /\ emitted (notifyAll ns w) = emitted w
  /\ forall e, wasPressed w e = true -> wasPressed (notifyAll ns w) e = true.
Proof.
  revert w. induction ns as [|n ns IH]; intros w; [done|].
  unfold notifyAll in *. cbn [foldl].
  destruct (IH (notify n w)) as (Hm & He & Hp), (notify_frame n w) as (Hm' & He' & Hp').
  split; [congruence|]. split; [congruence|]. intros e H. by apply Hp, Hp'.
Qed.

Lemma frame_unfold ns w : frame ns w = loop (notifyAll ns w).
Proof. reflexivity. Qed.

Lemma eventsSince_same u u' w' : emitted u = emitted u' -> eventsSince u w' = eventsSince u' w'.
Proof. unfold eventsSince. by intros ->. Qed.

(** ** Rising edges of one navigation event *)

Section NavEvent.

Variable e : string.
Hypothesis He : e ∈ navEvents.

(** One completed poll of the UI branch, seen from one event. *)
Lemma poll_UI_event (w w' : World) :
  String.eqb (inputMode (this w)) "GAME" = false ->
  poll w = (Normal tt, w') ->
  exists p,
    navReading e w = Some p
    /\ wasPressed w' e
       = (if p then true
          else if _justSwapped (this w) && isGuarded e then wasPressed w e else false)
    /\ occurrences e (eventsSince w w')
       = if p && negb (wasPressed w e) then 1%nat else 0%nat.
Proof.
  intros Hmode Hpoll. unfold navReading.
  rewrite poll_unfold, Hmode in Hpoll.
  destruct (sample w) as [[[]|err] ws] eqn:Hs; [|discriminate].
  injection Hpoll as <-.
  destruct (sample_normal w ws Hs) as (Hthis & Hem & _).
  destruct (elem_of_navEvents e He ws) as [p Hp]. exists p. split; [exact Hp|].
  destruct (edgeRun_spec (_justSwapped (this ws)) (uiSignals ws) (uiSignals_NoDup ws)
              (lastButtonState (this ws)) (emitted ws) e) as (evs & Hlog & Hat).
  rewrite Hp in Hat. destruct Hat as [Hm Hc].
  unfold wasPressed. rewrite pollUI_this. cbn [lastButtonState set_lastButtonState].
  rewrite (eventsSince_app w (pollUI ws) evs) by (by rewrite pollUI_emitted, Hlog, Hem).
  rewrite Hm, Hc, Hthis. done.
Qed.

(** One frame in UI mode, seen from one navigation event: the frame
    completes when the sample does, the memory afterwards is the reading,
    and the event is emitted once exactly on a rising edge. *)
Lemma loop_UI_event (w : World) (p : bool) :
  inputMode (this w) = "UI" ->
  navReading e w = Some p ->
  exists w',
    loop w = (Normal tt, w')
    /\ inputMode (this w') = "UI"
    /\ wasPressed w' e = p
    /\ occurrences e (eventsSince w w')
       = (if p && negb (wasPressed w e) then 1%nat else 0%nat)
    /\ exists evs, emitted w' = emitted w ++ evs.
Proof.
  intros Hmode Hp.
  set (w1 := onThis (set_justSwapped false) w).
  assert (Hp1 : navReading e w1 = Some p) by (by apply (navReading_ext e w w1)).
  assert (Hstep : forall u u',
    inputMode (this u) = "UI" -> _justSwapped (this u) = false ->
    navReading e u = Some p -> poll u = (Normal tt, u') ->
    inputMode (this u') = "UI" /\ _justSwapped (this u') = false
    /\ navReading e u' = Some p /\ wasPressed u' e = p
    /\ occurrences e (eventsSince u u') = if p && negb (wasPressed u e) then 1%nat else 0%nat).
  { intros u u' Hmu Hgu Hpu Hpoll.
    assert (Hmu' : String.eqb (inputMode (this u)) "GAME" = false) by (by rewrite Hmu).
    destruct (poll_UI_event u u' Hmu' Hpoll) as (p' & Hp' & Hmem & Hcnt).
    rewrite Hpu in Hp'. injection Hp' as <-. rewrite Hgu in Hmem. cbn [andb] in Hmem.
    destruct (poll_frame u u' Hpoll) as (Hg & Hk & Hs & Hmo & _ & Hj).
    rewrite Hmo, Hj. repeat split; try done.
    - by apply (navReading_ext e u u').
    - rewrite Hmem. by destruct p. }
  rewrite loop_unfold. fold w1.
  destruct (isAndroid (this w)).
  - destruct (navReading_completes e w1 p Hp1) as [w2 Hw2]. rewrite Hw2.
    destruct (Hstep w1 w2 Hmode eq_refl Hp1 Hw2) as (Hm2 & Hj2 & Hp2 & Hmem2 & Hc2).
    destruct (navReading_completes e w2 p Hp2) as [w3 Hw3]. rewrite Hw3.
    destruct (Hstep w2 w3 Hm2 Hj2 Hp2 Hw3) as (Hm3 & Hj3 & Hp3 & Hmem3 & Hc3).
    destruct (poll_appends w1 w2 Hw2) as [a Ha], (poll_appends w2 w3 Hw3) as [b Hb].
    eexists. split; [reflexivity|].
    split; [exact Hm3|]. split; [exact Hmem3|]. split.
    + change (occurrences e (eventsSince w1 w3)
              = if p && negb (wasPressed w1 e) then 1%nat else 0%nat).
      rewrite (eventsSince_trans w1 w2 w3 a b Ha Hb), occurrences_app, Hc2, Hc3, Hmem2.
      destruct p, (wasPressed w1 e); reflexivity.
    + exists (a ++ b). cbn [emitted onThis set_raf]. by rewrite Hb, Ha, app_assoc.
  - destruct (navReading_completes e w1 p Hp1) as [w3 Hw3]. rewrite Hw3.
    destruct (Hstep w1 w3 Hmode eq_refl Hp1 Hw3) as (Hm3 & Hj3 & Hp3 & Hmem3 & Hc3).
    eexists. split; [reflexivity|].
    split; [exact Hm3|]. split; [exact Hmem3|]. split; [exact Hc3|].
    exact (poll_appends w1 w3 Hw3).
Qed.

Lemma loop_reads w w' :
  loop w = (Normal tt, w') -> exists p, navReading e w = Some p.
Proof.
  rewrite loop_unfold.
  set (w1 := onThis (set_justSwapped false) w).
  assert (Hpoll : forall u, poll w1 = (Normal tt, u) -> exists p, navReading e w = Some p).
  { intros u Hu. rewrite poll_unfold in Hu.
    destruct (sample w1) as [[[]|err] ws] eqn:Hs; [|discriminate].
    destruct (elem_of_navEvents e He ws) as [p Hp]. exists p.
    apply (navReading_ext e w1 w); [done..|]. unfold navReading. by rewrite Hs. }
  destruct (isAndroid (this w)).
  - destruct (poll w1) as [[[]|err] w2] eqn:H1; [|discriminate]. intros _. eauto.
  - destruct (poll w1) as [[[]|err] w3] eqn:H1; [|discriminate]. intros _. eauto.
Qed.

(** While the input stays pressed and the memory is set, frames emit
    nothing for the event. *)
Lemma held_run_silent (fs : list (list Notification)) :
  forall w,
  inputMode (this w) = "UI" -> wasPressed w e = true -> heldThrough e fs w ->
  exists w' evs,
    runFrames fs w = (Normal tt, w')
    /\ emitted w' = emitted w ++ evs
    /\ occurrences e evs = 0%nat.
Proof.
  induction fs as [|ns fs IH]; intros w Hmode Hmem Hheld.
  - exists w, []. by rewrite app_nil_r.
  - destruct Hheld as [Hread Hheld].
    destruct (notifyAll_frame ns w) as (Hm0 & He0 & Hp0).
    destruct (loop_UI_event (notifyAll ns w) true)
      as (w1 & Hloop & Hm1 & Hmem1 & Hc1 & evs1 & Hevs1);
      [congruence|exact Hread|].
    rewrite frame_unfold, Hloop in Hheld. cbn [snd] in Hheld.
    destruct (IH w1 Hm1 Hmem1 Hheld) as (w' & evs & Hrun & Hevs & Hc).
    exists w', (evs1 ++ evs). cbn [runFrames]. unfold bind at 1.
    rewrite frame_unfold, Hloop.
    split; [exact Hrun|]. split; [by rewrite Hevs, Hevs1, He0, app_assoc|].
    rewrite (eventsSince_app _ _ _ Hevs1), (Hp0 e Hmem) in Hc1.
    by rewrite occurrences_app, Hc1, Hc.
Qed.

(** C2.  In UI mode, for each of nav-up, nav-down, nav-left, nav-right,
    confirm and back: an input that reads pressed in every frame of a run
    and starts from a clear edge memory emits its event exactly once, in
    the first frame, and never in the following ones; and an event is
    emitted only if the preceding frame (or poll) read the input released
    and, for confirm and back, the swap guard did not hold their set
    memory in place. *)
Theorem nav_event_rising_edge :
  (* held across the frames [ns :: fs]: one event, in the first frame *)
  (forall w ns fs,
     inputMode (this w) = "UI" ->
     wasPressed (notifyAll ns w) e = false ->
     heldThrough e (ns :: fs) w ->
     exists w1 w',
       frame ns w = (Normal tt, w1)
       /\ runFrames fs w1 = (Normal tt, w')
       /\ occurrences e (eventsSince w w1) = 1%nat
       /\ occurrences e (eventsSince w1 w') = 0%nat)
  (* a frame emits the event only if the frame before read it released *)
  /\ (forall w ns1 ns2 w1 w2,
        inputMode (this w) = "UI" ->
        frame ns1 w = (Normal tt, w1) ->
        frame ns2 w1 = (Normal tt, w2) ->
        occurrences e (eventsSince w1 w2) <> 0%nat ->
        navReading e (notifyAll ns1 w) = Some false)
  (* the same for two polls, where the swap guard can be raised *)
  /\ (forall w ns w1 w2,
        inputMode (this w) = "UI" ->
        poll w = (Normal tt, w1) ->
        poll (notifyAll ns w1) = (Normal tt, w2) ->
        occurrences e (eventsSince w1 w2) <> 0%nat ->
        navReading e w = Some false
        /\ _justSwapped (this w) && isGuarded e && wasPressed w e = false).
Proof.
  split; [|split].
  - intros w ns fs Hmode Hmem [Hread Hheld].
    destruct (notifyAll_frame ns w) as (Hm0 & He0 & _).
    destruct (loop_UI_event (notifyAll ns w) true)
      as (w1 & Hloop & Hm1 & Hmem1 & Hc1 & evs1 & Hevs1);
      [congruence|exact Hread|].
    rewrite frame_unfold, Hloop in Hheld. cbn [snd] in Hheld.
    destruct (held_run_silent fs w1 Hm1 Hmem1 Hheld) as (w' & evs & Hrun & Hevs & Hc).
    exists w1, w'. rewrite frame_unfold.
    split; [exact Hloop|]. split; [exact Hrun|]. split.
    + rewrite <- (eventsSince_same _ _ w1 He0), Hc1, Hmem. reflexivity.
    + by rewrite (eventsSince_app _ _ _ Hevs).
  - intros w ns1 ns2 w1 w2 Hmode H1 H2 Hfire.
    rewrite frame_unfold in H1, H2.
    destruct (notifyAll_frame ns1 w) as (Hm0 & _ & _).
    destruct (notifyAll_frame ns2 w1) as (Hm1' & He1' & Hp1').
    destruct (loop_reads _ _ H1) as [p Hp].
    destruct (loop_UI_event (notifyAll ns1 w) p) as (u1 & Hl1 & Hmu1 & Hmem1 & _);
      [congruence|exact Hp|].
    rewrite H1 in Hl1. injection Hl1 as <-.
    destruct (loop_reads _ _ H2) as [q Hq].
    destruct (loop_UI_event (notifyAll ns2 w1) q) as (u2 & Hl2 & _ & _ & Hc2 & _);
      [congruence|exact Hq|].
    rewrite H2 in Hl2. injection Hl2 as <-.
    rewrite (eventsSince_same _ _ w2 He1') in Hc2.
    destruct p; [|exact Hp].
    rewrite (Hp1' e Hmem1), andb_false_r in Hc2. done.
  - intros w ns w1 w2 Hmode H1 H2 Hfire.
    destruct (notifyAll_frame ns w1) as (Hm1' & He1' & Hp1').
    assert (Hmode' : String.eqb (inputMode (this w)) "GAME" = false) by (by rewrite Hmode).
    destruct (poll_UI_event w w1 Hmode' H1) as (p & Hp & Hmem1 & _).
    destruct (poll_frame w w1 H1) as (_ & _ & _ & Hmo & _).
    assert (Hmode1 : String.eqb (inputMode (this (notifyAll ns w1))) "GAME" = false)
      by (by rewrite Hm1', Hmo, Hmode).
    destruct (poll_UI_event _ w2 Hmode1 H2) as (q & _ & _ & Hc2).
    rewrite (eventsSince_same _ _ w2 He1') in Hc2.
    destruct (wasPressed w1 e) eqn:Hw1.
    { rewrite (Hp1' e Hw1), andb_false_r in Hc2. done. }
    destruct p; [discriminate|]. split; [exact Hp|].
    destruct (_justSwapped (this w) && isGuarded e); [by rewrite <- Hmem1|done].
Qed.

End NavEvent.

(** ** The menu trigger *)

Lemma poll_GAME_menu (w w' : World) :
  inputMode (this w) = "GAME" ->
  poll w = (Normal tt, w') ->
  eventsSince w w'
  = (if menuTriggered w' && negb (wasPressed w "menu") then ["menu"] else [])
  /\ wasPressed w' "menu" = menuTriggered w'.
Proof.
  intros Hmode Hpoll. rewrite poll_unfold, Hmode in Hpoll.
  destruct (sample w) as [[[]|err] ws] eqn:Hs; [|discriminate].
  cbn [String.eqb Ascii.eqb Bool.eqb] in Hpoll. injection Hpoll as <-.
  destruct (sample_normal w ws Hs) as (Hthis & Hem & _).
  assert (Htrig : menuTriggered (pollGame ws) = menuTriggered ws).
  { unfold menuTriggered, keyHeld. by rewrite pollGame_this. }
  rewrite Htrig. unfold wasPressed. rewrite pollGame_this.
  cbn [lastButtonState set_lastButtonState].
  destruct (edgeStep_at false "menu" (menuTriggered ws) (lastButtonState (this ws))) as [Hm _].
  split.
  - apply eventsSince_app. rewrite pollGame_emitted, edgeStep_split, Hem. cbn [snd].
    f_equal. unfold edgeStep. rewrite Hthis. cbn [fst snd lastButtonState set_inputBuffer].
    destruct (menuTriggered ws); [|reflexivity].
    destruct (truthy (lastButtonState (this w) !! "menu")); reflexivity.
  - rewrite edgeStep_split. cbn [fst]. rewrite Hm. by destruct (menuTriggered ws).
Qed.

Lemma poll_sampled_eq (w1 w2 w1' w2' : World) :
  gamepad0 w1 = gamepad0 w2 -> keys (this w1) = keys (this w2) ->
  poll w1 = (Normal tt, w1') -> poll w2 = (Normal tt, w2') ->
  _inputBuffer (this w1') = _inputBuffer (this w2')
  /\ keys (this w1') = keys (this w2').
Proof.
  intros Hg Hk H1 H2.
  apply poll_buffer in H1 as (Hb1 & Hk1 & _), H2 as (Hb2 & Hk2 & _).
  rewrite Hg, Hk in Hb1.
  rewrite (sampleInto_indep _ _ _ (_inputBuffer (this w2)) _ Hb1) in Hb2.
  split; congruence.
Qed.

(** C5, as amended.  In GAME mode a poll emits "menu" exactly when start,
    select, Escape, p or P is active and the menu edge memory is clear,
    sets that memory to the trigger (so it is cleared on any poll where
    none is active), and the swap flag has no influence; in UI mode a poll
    never emits "menu" and never touches its edge memory. *)
Theorem menu_edge_in_game_mode_only :
  (* GAME mode *)
  (forall w w',
     inputMode (this w) = "GAME" ->
     poll w = (Normal tt, w') ->
     let buf := _inputBuffer (this w') in
     let triggered :=
       Buf.select buf || Buf.start buf || keyHeld w "Escape" || keyHeld w "p"
       || keyHeld w "P" in
     eventsSince w w'
     = (if triggered && negb (wasPressed w "menu") then ["menu"] else [])
     /\ wasPressed w' "menu" = triggered
     /\ forall v w1,
          poll (onThis (set_swapButtons v) w) = (Normal tt, w1) ->
          eventsSince (onThis (set_swapButtons v) w) w1 = eventsSince w w'
          /\ wasPressed w1 "menu" = wasPressed w' "menu")
  (* UI mode *)
  /\ (forall w w',
        inputMode (this w) = "UI" ->
        poll w = (Normal tt, w') ->
        occurrences "menu" (eventsSince w w') = 0%nat
        /\ lastButtonState (this w') !! "menu" = lastButtonState (this w) !! "menu").
Proof.
  split.
  - intros w w' Hmode Hpoll. cbv zeta.
    destruct (poll_GAME_menu w w' Hmode Hpoll) as [Hev Hmem].
    assert (Hk : keys (this w') = keys (this w)) by (by apply poll_buffer in Hpoll as (_ & ? & _)).
    assert (Htrig : menuTriggered w'
                    = Buf.select (_inputBuffer (this w')) || Buf.start (_inputBuffer (this w'))
                      || keyHeld w "Escape" || keyHeld w "p" || keyHeld w "P").
    { unfold menuTriggered, keyHeld. by rewrite Hk. }
    rewrite <- Htrig. split; [exact Hev|]. split; [exact Hmem|].
    intros v w1 H1.
    destruct (poll_GAME_menu (onThis (set_swapButtons v) w) w1 Hmode H1) as [Hev1 Hmem1].
    destruct (poll_sampled_eq (onThis (set_swapButtons v) w) w w1 w'
                eq_refl eq_refl H1 Hpoll) as [Hb Hk1].
    assert (Htrig1 : menuTriggered w1 = menuTriggered w').
    { unfold menuTriggered, keyHeld. by rewrite Hb, Hk1. }
    rewrite Hev1, Hmem1, Htrig1, Hev, Hmem. done.
  - intros w w' Hmode Hpoll.
    assert (Hmode' : String.eqb (inputMode (this w)) "GAME" = false) by (by rewrite Hmode).
    destruct (poll_UI_other "menu" w w') as [Hm Hc]; [|done..].
    unfold navEvents. apply (bool_decide_unpack _). by vm_compute.
Qed.

(** ** The swap guard *)

Lemma confirm_back_nav : "confirm" ∈ navEvents /\ "back" ∈ navEvents.
Proof. unfold navEvents. split; apply (bool_decide_unpack _); by vm_compute. Qed.

(** C4.  When the swap flag changes in UI mode the watcher caches the
    new value, marks confirm and back as already held and raises
    [_justSwapped]; under that flag [emitChange] leaves a released confirm
    or back untouched; hence neither a poll run while the flag is raised
    nor the next frame emits confirm or back, whatever is held. *)
Theorem swap_change_guards_confirm_back (w : World) (newVal : bool) :
  inputMode (this w) = "UI" ->
  newVal <> swapButtons (this w) ->
  let w1 := onSwapButtons newVal w in
  (* the watcher *)
  swapButtons (this w1) = newVal
  /\ wasPressed w1 "confirm" = true /\ wasPressed w1 "back" = true
  /\ _justSwapped (this w1) = true
  (* the edge detector under the guard *)
  /\ (forall u e,
        _justSwapped (this u) = true -> e = "confirm" \/ e = "back" ->
        emitChange e false u = u)
  (* a poll while the guard is raised *)
  /\ (forall w',
        poll w1 = (Normal tt, w') ->
        occurrences "confirm" (eventsSince w1 w') = 0%nat
        /\ occurrences "back" (eventsSince w1 w') = 0%nat
        /\ wasPressed w' "confirm" = true /\ wasPressed w' "back" = true)
  (* the next frame *)
  /\ (forall w',
        loop w1 = (Normal tt, w') ->
        occurrences "confirm" (eventsSince w1 w') = 0%nat
        /\ occurrences "back" (eventsSince w1 w') = 0%nat).
Proof.
  intros Hmode Hne. cbv zeta.
  assert (Hw1 : onSwapButtons newVal w
    = onThis (set_justSwapped true)
        (onThis (fun s => set_lastButtonState (<["confirm" := true]> (lastButtonState s)) s)
           (onThis (fun s => set_lastButtonState (<["back" := true]> (lastButtonState s)) s)
              (onThis (set_swapButtons newVal) w)))).
  { unfold onSwapButtons. cbn [this onThis inputMode set_swapButtons swapButtons].
    rewrite Hmode. destruct newVal, (swapButtons (this w)); done. }
  assert (Hc : wasPressed (onSwapButtons newVal w) "confirm" = true)
    by (rewrite Hw1; unfold wasPressed; cbn; by rewrite lookup_insert_eq).
  assert (Hb : wasPressed (onSwapButtons newVal w) "back" = true).
  { rewrite Hw1. unfold wasPressed. cbn.
    rewrite lookup_insert_ne by done. by rewrite lookup_insert_eq. }
  assert (Hg : _justSwapped (this (onSwapButtons newVal w)) = true) by (by rewrite Hw1).
  assert (Hm1 : inputMode (this (onSwapButtons newVal w)) = "UI")
    by (by rewrite (proj1 (onSwapButtons_frame newVal w))).
  destruct confirm_back_nav as [Hcn Hbn].
  split; [by rewrite Hw1|]. split; [exact Hc|]. split; [exact Hb|]. split; [exact Hg|].
  split; [|split].
  - intros u e Hu [-> | ->]; unfold emitChange; by rewrite Hu.
  - intros w' Hpoll.
    assert (Hm1' : String.eqb (inputMode (this (onSwapButtons newVal w))) "GAME" = false)
      by (by rewrite Hm1).
    destruct (poll_UI_event "confirm" Hcn _ w' Hm1' Hpoll) as (p & _ & Hpm & Hpc).
    destruct (poll_UI_event "back" Hbn _ w' Hm1' Hpoll) as (q & _ & Hqm & Hqc).
    rewrite Hc in Hpm, Hpc. rewrite Hb in Hqm, Hqc. rewrite Hg in Hpm, Hqm.
    rewrite andb_false_r in Hpc, Hqc. cbn in Hpm, Hqm.
    repeat split; try done; [by destruct p|by destruct q].
  - intros w' Hloop.
    destruct (loop_reads "confirm" Hcn _ _ Hloop) as [p Hp].
    destruct (loop_reads "back" Hbn _ _ Hloop) as [q Hq].
    destruct (loop_UI_event "confirm" Hcn _ p Hm1 Hp) as (u & Hu & _ & _ & Hpc & _).
    destruct (loop_UI_event "back" Hbn _ q Hm1 Hq) as (u' & Hu' & _ & _ & Hqc & _).
    rewrite Hloop in Hu, Hu'. injection Hu as <-. injection Hu' as <-.
    rewrite Hc, andb_false_r in Hpc. rewrite Hb, andb_false_r in Hqc. done.
Qed.

(** ** Mode switches and held buttons *)

(** C3, as amended.  [setMode] with a valid mode stores the mode, clears
    all edge memory and, for "UI", zeroes slot 0 of [window.pico8_buttons].
    The memory from before the switch has no influence afterwards: the
    first UI poll emits each navigation event exactly when its input reads
    pressed, be it a new press or a button held across the switch, and the
    first GAME poll emits "menu" exactly when it is triggered. *)
Theorem setMode_resets_edge_memory (m : string) (w : World) :
  m = "UI" \/ m = "GAME" ->
  let w' := setMode (JsString m) w in
  inputMode (this w') = m
  /\ lastButtonState (this w') = clearedButtonState
  /\ (forall e, wasPressed w' e = false)
  /\ (m = "UI" ->
      pico8_buttons w' = assign0 0 <$> pico8_buttons w
      /\ forall arr, pico8_buttons w' = Some arr -> arr !! 0%nat = Some 0)
  (* the first poll after the reset fires every input that reads pressed *)
  /\ (m = "UI" ->
      forall e w'',
        e ∈ navEvents -> poll w' = (Normal tt, w'') ->
        exists p, navReading e w' = Some p
          /\ occurrences e (eventsSince w' w'') = if p then 1%nat else 0%nat)
  /\ (m = "GAME" ->
      forall w'',
        poll w' = (Normal tt, w'') ->
        eventsSince w' w'' = if menuTriggered w'' then ["menu"] else []).
Proof.
  intros Hm. cbv zeta.
  destruct (setMode_valid m w Hm) as (Hthis & _ & _ & Hpico).
  assert (Hmem : lastButtonState (this (setMode (JsString m) w)) = clearedButtonState)
    by (by rewrite Hthis).
  assert (Hclear : forall e, wasPressed (setMode (JsString m) w) e = false)
    by (intros e; by apply wasPressed_cleared).
  split; [by rewrite Hthis|]. split; [exact Hmem|]. split; [exact Hclear|].
  split; [|split].
  - intros ->. cbn [String.eqb Ascii.eqb Bool.eqb] in Hpico. split; [exact Hpico|].
    intros arr Harr. rewrite Hpico in Harr.
    destruct (pico8_buttons w); [|discriminate]. injection Harr as <-.
    apply assign0_lookup.
  - intros -> e w'' He Hpoll.
    assert (Hmode : String.eqb (inputMode (this (setMode (JsString "UI") w))) "GAME" = false)
      by (by rewrite Hthis).
    destruct (poll_UI_event e He _ w'' Hmode Hpoll) as (p & Hp & _ & Hc).
    exists p. split; [exact Hp|]. by rewrite Hc, Hclear, andb_true_r.
  - intros -> w'' Hpoll.
    assert (Hmode : inputMode (this (setMode (JsString "GAME") w)) = "GAME")
      by (by rewrite Hthis).
    destruct (poll_GAME_menu _ w'' Hmode Hpoll) as [Hev _].
    by rewrite Hev, Hclear, andb_true_r.
Qed.

(** ** Instances on sample worlds *)

Lemma gameplay_mask_bits_witness :
  inputMode (this gameWorld) = "GAME"
  /\ poll gameWorld = (Normal tt, (poll gameWorld).2)
  /\ exists mask : Z,
       pico8_buttons (poll gameWorld).2 = assign0 mask <$> pico8_buttons gameWorld
       /\ Z.testbit mask 2 = Buf.up (_inputBuffer (this (poll gameWorld).2))
       /\ Z.testbit mask 4
          = existsb (sourceActive (poll gameWorld).2)
              (oSources (swapButtons (this (poll gameWorld).2)))
       /\ (forall i, 6 <= i -> Z.testbit mask i = false).
Proof.
  assert (Hmode : inputMode (this gameWorld) = "GAME") by reflexivity.
  assert (Hpoll : poll gameWorld = (Normal tt, (poll gameWorld).2)) by (vm_compute; reflexivity).
  split; [exact Hmode|]. split; [exact Hpoll|].
  destruct (gameplay_mask_bits gameWorld (poll gameWorld).2 Hmode Hpoll)
    as (mask & H & _ & _ & _ & H2 & _ & H4 & _ & Hhi).
  exists mask. repeat split; assumption.
Defined.

Lemma no_gamepad_flags_false_witness :
  let w := handleKey "ArrowLeft" "keydown" (newWorld false None) in
  gamepad0 w = None
  /\ exists w', poll w = (Normal tt, w')
       /\ Buf.a (_inputBuffer (this w')) = false
       /\ Buf.left (_inputBuffer (this w')) = keyHeld w "ArrowLeft".
Proof.
  intros w. split; [reflexivity|].
  destruct (no_gamepad_flags_false w eq_refl)
    as (w' & Hpoll & Ha & _ & _ & _ & _ & _ & _ & _ & Hl & _).
  exists w'. repeat split; assumption.
Defined.

Lemma missing_fields_read_not_pressed_witness :
  let w := newWorld false (Some emptyPad) in
  gamepad0 w = Some emptyPad /\ buttons emptyPad = Some [] /\ axes emptyPad = Some []
  /\ exists w', poll w = (Normal tt, w')
       /\ (missingButton [] 0 -> Buf.a (_inputBuffer (this w')) = false)
       /\ (missingButton [] 9 -> Buf.start (_inputBuffer (this w')) = false).
Proof.
  intros w. split; [reflexivity|]. split; [reflexivity|]. split; [reflexivity|].
  destruct (missing_fields_read_not_pressed w emptyPad [] [] eq_refl eq_refl eq_refl)
    as (w' & Hpoll & Ha & _ & _ & _ & _ & Hst & _).
  exists w'. repeat split; assumption.
Defined.

(** Only the arrays themselves are indispensable: a gamepad object
    without [buttons] makes the first read of the sampler throw. *)
Example poll_throws_without_button_array :
  (poll (newWorld false (Some {| buttons := None; axes := Some [] |}))).1
  = Throw TypeError.
Proof. reflexivity. Qed.

Lemma nav_event_rising_edge_witness :
  let w := newWorld true (Some (padWith [0%nat] [])) in
  let fs := [[]; [KeyTransition "ArrowUp" "keydown"]] in
  "confirm" ∈ navEvents
  /\ inputMode (this w) = "UI"
  /\ wasPressed (notifyAll [] w) "confirm" = false
  /\ heldThrough "confirm" ([] :: fs) w
  /\ exists w1 w',
       frame [] w = (Normal tt, w1)
       /\ runFrames fs w1 = (Normal tt, w')
       /\ occurrences "confirm" (eventsSince w w1) = 1%nat
       /\ occurrences "confirm" (eventsSince w1 w') = 0%nat.
Proof.
  intros w fs.
  assert (He : "confirm" ∈ navEvents) by apply confirm_back_nav.
  assert (Hmode : inputMode (this w) = "UI") by reflexivity.
  assert (Hmem : wasPressed (notifyAll [] w) "confirm" = false) by (vm_compute; reflexivity).
  assert (Hheld : heldThrough "confirm" ([] :: fs) w)
    by (vm_compute; repeat split; reflexivity).
  split; [exact He|]. split; [exact Hmode|]. split; [exact Hmem|]. split; [exact Hheld|].
  exact (proj1 (nav_event_rising_edge "confirm" He) w [] fs Hmode Hmem Hheld).
Defined.

Lemma swap_change_guards_confirm_back_witness :
  let w := heldBackWorld in
  let w1 := onSwapButtons true w in
  inputMode (this w) = "UI"
  /\ true <> swapButtons (this w)
  /\ wasPressed w "back" = true
  /\ loop w1 = (Normal tt, (loop w1).2)
  /\ occurrences "confirm" (eventsSince w1 (loop w1).2) = 0%nat
  /\ occurrences "back" (eventsSince w1 (loop w1).2) = 0%nat.
Proof.
  intros w w1.
  assert (Hmode : inputMode (this w) = "UI") by (vm_compute; reflexivity).
  assert (Hne : true <> swapButtons (this w)) by (vm_compute; discriminate).
  assert (Hloop : loop w1 = (Normal tt, (loop w1).2)) by (vm_compute; reflexivity).
  split; [exact Hmode|]. split; [exact Hne|]. split; [vm_compute; reflexivity|].
  split; [exact Hloop|].
  destruct (swap_change_guards_confirm_back w true Hmode Hne)
    as (_ & _ & _ & _ & _ & _ & Hframe).
  exact (Hframe (loop w1).2 Hloop).
Defined.

(** C3 as stated fails: with button 0 held and "confirm" already
    emitted, switching to GAME, polling there, and switching back to UI
    makes the next poll emit "confirm" again although the button was never
    released. *)
Lemma held_button_fires_again_after_mode_switch :
  let w := heldConfirmWorld in
  let wGame := (poll (setMode (JsString "GAME") w)).2 in
  let wBack := setMode (JsString "UI") wGame in
  inputMode (this w) = "UI"
  /\ emitted w = ["confirm"]
  /\ wasPressed w "confirm" = true
  /\ navReading "confirm" w = Some true
  /\ navReading "confirm" wBack = Some true
  /\ exists w'', poll wBack = (Normal tt, w'') /\ eventsSince wBack w'' = ["confirm"].
Proof.
  intros w wGame wBack.
  split; [vm_compute; reflexivity|]. split; [vm_compute; reflexivity|].
  split; [vm_compute; reflexivity|]. split; [vm_compute; reflexivity|].
  split; [vm_compute; reflexivity|].
  exists (poll wBack).2. split; vm_compute; reflexivity.
Qed.

Lemma setMode_resets_edge_memory_witness :
  let w' := setMode (JsString "UI") heldConfirmWorld in
  ("UI" = "UI" \/ "UI" = "GAME")
  /\ wasPressed heldConfirmWorld "confirm" = true
  /\ wasPressed w' "confirm" = false
  /\ exists p, navReading "confirm" w' = Some p
       /\ occurrences "confirm" (eventsSince w' (poll w').2) = if p then 1%nat else 0%nat.
Proof.
  intros w'.
  assert (Hm : "UI" = "UI" \/ "UI" = "GAME") by (left; reflexivity).
  destruct (setMode_resets_edge_memory "UI" heldConfirmWorld Hm)
    as (_ & _ & Hclear & _ & Hfire & _).
  split; [exact Hm|]. split; [vm_compute; reflexivity|]. split; [apply Hclear|].
  apply (Hfire eq_refl "confirm" (poll w').2); [apply confirm_back_nav|].
  vm_compute; reflexivity.
Defined.

(** C5 as stated fails in UI mode: start goes down with the menu edge
    memory clear, and the poll emits nothing. *)
Lemma start_in_UI_mode_emits_no_menu :
  let w := newWorld false (Some (padWith [9%nat] [])) in
  inputMode (this w) = "UI"
  /\ wasPressed w "menu" = false
  /\ exists w', poll w = (Normal tt, w')
       /\ Buf.start (_inputBuffer (this w')) = true
       /\ eventsSince w w' = [].
Proof.
  intros w. split; [reflexivity|]. split; [vm_compute; reflexivity|].
  exists (poll w).2.
  split; [vm_compute; reflexivity|]. split; vm_compute; reflexivity.
Qed.

Lemma menu_edge_in_game_mode_only_witness :
  let w := setMode (JsString "GAME") (newWorld false (Some (padWith [9%nat] []))) in
  inputMode (this w) = "GAME"
  /\ poll w = (Normal tt, (poll w).2)
  /\ eventsSince w (poll w).2 = ["menu"]
  /\ wasPressed (poll w).2 "menu" = true.
Proof.
  intros w.
  assert (Hmode : inputMode (this w) = "GAME") by reflexivity.
  assert (Hpoll : poll w = (Normal tt, (poll w).2)) by (vm_compute; reflexivity).
  split; [exact Hmode|]. split; [exact Hpoll|].
  destruct (proj1 menu_edge_in_game_mode_only w (poll w).2 Hmode Hpoll) as (Hev & Hmem & _).
  split.
  - rewrite Hev. vm_compute. reflexivity.
  - rewrite Hmem. vm_compute. reflexivity.
Defined.

(** * Further properties *)

(** ** The swap flag as a remap *)

Lemma sourceActive_flipSwap w src : sourceActive (flipSwap w) src = sourceActive w src.
Proof. by destruct src. Qed.

Lemma existsb_sourceActive_flipSwap w l :
  existsb (sourceActive (flipSwap w)) l = existsb (sourceActive w) l.
Proof.
  induction l as [|src l IH]; [reflexivity|]. cbn [existsb].
  by rewrite IH, sourceActive_flipSwap.
Qed.

(** X1.  For the same buffer and keys, inverting the swap flag exchanges
    bit 4 (O) and bit 5 (X) of the GAME mask and leaves every other bit as
    it was; inverting it twice gives the mask back. *)
Theorem swap_exchanges_action_bits (w : World) :
  Z.testbit (gameMask (flipSwap w)) 4 = Z.testbit (gameMask w) 5
  /\ Z.testbit (gameMask (flipSwap w)) 5 = Z.testbit (gameMask w) 4
  /\ (forall i, i <> 4 -> i <> 5 ->
       Z.testbit (gameMask (flipSwap w)) i = Z.testbit (gameMask w) i)
  /\ gameMask (flipSwap (flipSwap w)) = gameMask w.
Proof.
  assert (Htwice : gameMask (flipSwap (flipSwap w)) = gameMask w).
  { unfold gameMask, keysZCN, keysXVM, keyHeld.
    cbn [flipSwap this onThis swapButtons set_swapButtons _inputBuffer keys].
    by rewrite negb_involutive. }
  destruct (gameMask_bits w) as (H0 & H1 & H2 & H3 & H4 & H5 & Hlt).
  destruct (gameMask_bits (flipSwap w)) as (F0 & F1 & F2 & F3 & F4 & F5 & Flt).
  rewrite existsb_sourceActive_flipSwap in F4, F5.
  cbn [flipSwap this onThis swapButtons set_swapButtons _inputBuffer] in F0, F1, F2, F3, F4, F5.
  split; [|split; [|split; [|exact Htwice]]].
  - rewrite F4, H5. by destruct (swapButtons (this w)).
  - rewrite F5, H4. by destruct (swapButtons (this w)).
  - intros i Hi4 Hi5.
    assert (Hi : i < 0 \/ i = 0 \/ i = 1 \/ i = 2 \/ i = 3 \/ 6 <= i) by lia.
    destruct Hi as [Hi | [-> | [-> | [-> | [-> | Hi]]]]]; try congruence.
    + by rewrite !Z.testbit_neg_r.
    + by rewrite !testbit_small.
Qed.

(** X2.  In the UI branch the swap flag exchanges the gamepad faces behind
    confirm and back, and only those: with no keyboard alias held,
    inverting the flag turns confirm into back and back into confirm; a
    held keyboard alias gives its event under either value of the flag. *)
Theorem swap_exchanges_faces_not_keys (w : World) :
  let confirmKeys :=
    keyHeld w "z" || keyHeld w "Z" || keyHeld w "Enter" || keyHeld w " " in
  let backKeys :=
    keyHeld w "x" || keyHeld w "X" || keyHeld w "Backspace" || keyHeld w "Escape" in
  (confirmKeys = false -> backKeys = false ->
   uiConfirm (flipSwap w) = uiBack w /\ uiBack (flipSwap w) = uiConfirm w)
  /\ (confirmKeys = true -> uiConfirm w = true /\ uiConfirm (flipSwap w) = true)
  /\ (backKeys = true -> uiBack w = true /\ uiBack (flipSwap w) = true).
Proof.
  cbv zeta. unfold uiConfirm, uiBack, keyHeld.
  cbn [flipSwap this onThis swapButtons set_swapButtons _inputBuffer keys].
  split; [|split].
  - intros -> ->.
    destruct (swapButtons (this w)), (Buf.a _), (Buf.b _); done.
  - by intros ->.
  - by intros ->.
Qed.

Lemma swap_exchanges_faces_not_keys_witness :
  let w := heldConfirmWorld in
  (keyHeld w "z" || keyHeld w "Z" || keyHeld w "Enter" || keyHeld w " ") = false
  /\ (keyHeld w "x" || keyHeld w "X" || keyHeld w "Backspace" || keyHeld w "Escape") = false
  /\ uiConfirm (flipSwap w) = uiBack w /\ uiBack (flipSwap w) = uiConfirm w.
Proof.
  intros w.
  assert (Hc : (keyHeld w "z" || keyHeld w "Z" || keyHeld w "Enter" || keyHeld w " ") = false)
    by (vm_compute; reflexivity).
  assert (Hb : (keyHeld w "x" || keyHeld w "X" || keyHeld w "Backspace" || keyHeld w "Escape") = false)
    by (vm_compute; reflexivity).
  split; [exact Hc|]. split; [exact Hb|].
  exact (proj1 (swap_exchanges_faces_not_keys w) Hc Hb).
Defined.

(** ** What a poll leaves alone *)

Lemma poll_keeps w c w' : poll w = (c, w') -> pollKeeps w w'.
Proof.
  rewrite poll_unfold, sample_unfold.
  destruct (sampleInto _ _ _) as [[[]|err] b]; cbn [fst snd]; intros [= <- <-].
  - destruct (String.eqb _ _).
    + rewrite pollGame_unfold. unfold writeButtons, pollKeeps. cbn.
      destruct (pico8_buttons w); cbn; repeat split.
    + rewrite pollUI_unfold. unfold pollKeeps. cbn. repeat split.
  - unfold pollKeeps. cbn. repeat split.
Qed.

Lemma poll_UI_pico w c w' :
  String.eqb (inputMode (this w)) "GAME" = false ->
  poll w = (c, w') -> pico8_buttons w' = pico8_buttons w.
Proof.
  intros Hmode. rewrite poll_unfold, sample_unfold, Hmode.
  destruct (sampleInto _ _ _) as [[[]|err] b]; cbn [fst snd]; intros [= <- <-].
  - by rewrite pollUI_unfold.
  - reflexivity.
Qed.

Lemma gameMask_ext w1 w2 :
  _inputBuffer (this w1) = _inputBuffer (this w2) ->
  keys (this w1) = keys (this w2) ->
  swapButtons (this w1) = swapButtons (this w2) ->
  gameMask w1 = gameMask w2.
Proof.
  intros Hb Hk Hs. unfold gameMask, keysZCN, keysXVM, keyHeld. by rewrite Hb, Hk, Hs.
Qed.

Lemma poll_GAME_pico w w' :
  inputMode (this w) = "GAME" ->
  poll w = (Normal tt, w') ->
  pico8_buttons w' = assign0 (gameMask w') <$> pico8_buttons w.
Proof.
  intros Hmode Hpoll. rewrite poll_unfold, Hmode in Hpoll.
  destruct (sample w) as [[[]|err] ws] eqn:Hs; [|discriminate].
  cbn [String.eqb Ascii.eqb Bool.eqb] in Hpoll. injection Hpoll as <-.
  destruct (sample_normal w ws Hs) as (_ & _ & Hp).
  rewrite pollGame_pico, Hp. do 2 f_equal.
  apply gameMask_ext; by rewrite pollGame_this.
Qed.

Lemma poll_GAME_other w w' e :
  inputMode (this w) = "GAME" ->
  poll w = (Normal tt, w') ->
  e <> "menu" ->
  lastButtonState (this w') !! e = lastButtonState (this w) !! e.
Proof.
  intros Hmode Hpoll He. rewrite poll_unfold, Hmode in Hpoll.
  destruct (sample w) as [[[]|err] ws] eqn:Hs; [|discriminate].
  cbn [String.eqb Ascii.eqb Bool.eqb] in Hpoll. injection Hpoll as <-.
  destruct (sample_normal w ws Hs) as (Hthis & _ & _).
  rewrite pollGame_this. cbn [lastButtonState set_lastButtonState].
  rewrite edgeStep_split. cbn [fst].
  destruct (edgeStep_other false "menu" (menuTriggered ws) (lastButtonState (this ws)) e)
    as [Hm _]; [done|].
  by rewrite Hm, Hthis.
Qed.

Lemma occurrences_all_zero (l : list string) :
  (forall x, occurrences x l = 0%nat) -> l = [].
Proof.
  destruct l as [|x l]; [done|]. intros H. specialize (H x).
  unfold occurrences in H. rewrite filter_cons_True in H by done. discriminate.
Qed.

Lemma assign0_assign0 v arr : assign0 v (assign0 v arr) = assign0 v arr.
Proof. by destruct arr. Qed.

(** X3.  A poll that follows a completed poll with nothing changed in
    between completes too, emits nothing, leaves [window.pico8_buttons] as
    the first poll left it and changes no edge memory reading: the second
    poll of an Android frame never doubles an event. *)
Theorem second_poll_is_silent (w w1 : World) :
  poll w = (Normal tt, w1) ->
  exists w2,
    poll w1 = (Normal tt, w2)
    /\ emitted w2 = emitted w1
    /\ pico8_buttons w2 = pico8_buttons w1
    /\ forall e, wasPressed w2 e = wasPressed w1 e.
Proof.
  intros H1.
  pose proof (poll_keeps w _ w1 H1) as (Hg & Hk & Hs & Hm & _ & Hj & _).
  pose proof (poll_buffer w w1 H1) as (Hb1 & _).
  assert (Hb2 : sampleInto (gamepad0 w1) (keys (this w1)) (_inputBuffer (this w1))
                = (Normal tt, _inputBuffer (this w1))).
  { rewrite Hg, Hk. exact (sampleInto_indep _ _ _ _ _ Hb1). }
  destruct (poll_completes w1 _ Hb2) as [w2 H2]. exists w2. split; [exact H2|].
  pose proof (poll_keeps w1 _ w2 H2) as (Hg2 & Hk2 & Hs2 & Hm2 & _).
  destruct (poll_sampled_eq w w1 w1 w2 (eq_sym Hg) (eq_sym Hk) H1 H2) as [Hbuf _].
  destruct (poll_appends w1 w2 H2) as [evs Hevs].
  destruct (String.eqb (inputMode (this w)) "GAME") eqn:Hmode.
  - apply String.eqb_eq in Hmode.
    assert (Hmode1 : inputMode (this w1) = "GAME") by congruence.
    destruct (poll_GAME_menu w w1 Hmode H1) as [_ Hmem1].
    destruct (poll_GAME_menu w1 w2 Hmode1 H2) as [Hev2 Hmem2].
    assert (Htrig : menuTriggered w2 = menuTriggered w1).
    { unfold menuTriggered, keyHeld. by rewrite <- Hbuf, Hk2. }
    rewrite Htrig, Hmem1 in Hev2. rewrite Htrig in Hmem2.
    rewrite (eventsSince_app _ _ _ Hevs), andb_negb_r in Hev2. subst evs.
    split; [by rewrite Hevs, app_nil_r|]. split.
    + rewrite (poll_GAME_pico w1 w2 Hmode1 H2), (poll_GAME_pico w w1 Hmode H1).
      rewrite (gameMask_ext w2 w1) by congruence.
      destruct (pico8_buttons w); cbn; [by rewrite assign0_assign0|done].
    + intros e. destruct (decide (e = "menu")) as [->|Hne]; [congruence|].
      unfold wasPressed. by rewrite (poll_GAME_other w1 w2 e Hmode1 H2 Hne).
  - assert (Hmode1 : String.eqb (inputMode (this w1)) "GAME" = false) by (by rewrite Hm).
    assert (Hnav : forall e, e ∈ navEvents ->
              occurrences e evs = 0%nat /\ wasPressed w2 e = wasPressed w1 e).
    { intros e He.
      destruct (poll_UI_event e He w w1 Hmode H1) as (p & Hp & Hmem1 & _).
      destruct (poll_UI_event e He w1 w2 Hmode1 H2) as (q & Hq & Hmem2 & Hc2).
      rewrite (navReading_ext e w w1 p (eq_sym Hg) (eq_sym Hk) (eq_sym Hs) Hp) in Hq.
      injection Hq as <-. rewrite (eventsSince_app _ _ _ Hevs) in Hc2.
      rewrite Hj in Hmem2. rewrite Hc2, Hmem2, Hmem1.
      destruct p; [done|]. by destruct (_ && _). }
    assert (Hoth : forall e, e ∉ navEvents ->
              occurrences e evs = 0%nat /\ wasPressed w2 e = wasPressed w1 e).
    { intros e He. destruct (poll_UI_other e w1 w2 He Hmode1 H2) as [Hmem Hc].
      rewrite (eventsSince_app _ _ _ Hevs) in Hc. unfold wasPressed. by rewrite Hmem. }
    assert (Hall : forall e, occurrences e evs = 0%nat /\ wasPressed w2 e = wasPressed w1 e).
    { intros e. destruct (decide (e ∈ navEvents)); [by apply Hnav|by apply Hoth]. }
    rewrite (occurrences_all_zero evs (fun e => proj1 (Hall e))) in Hevs.
    split; [by rewrite Hevs, app_nil_r|].
    split; [exact (poll_UI_pico w1 _ w2 Hmode1 H2)|]. intros e. apply Hall.
Qed.

(** ** What a frame leaves alone, and what it schedules *)

Lemma loop_outcome w c w' :
  loop w = (c, w') ->
  (gamepad0 w' = gamepad0 w
   /\ keys (this w') = keys (this w)
   /\ swapButtons (this w') = swapButtons (this w)
   /\ inputMode (this w') = inputMode (this w)
   /\ isAndroid (this w') = isAndroid (this w)
   /\ active (this w') = active (this w)
   /\ storeSwapButtons w' = storeSwapButtons w
   /\ swapWatchers w' = swapWatchers w
   /\ keydownBound w' = keydownBound w
   /\ keyupBound w' = keyupBound w)
  /\ _justSwapped (this w') = false
  /\ match c with
     | Normal _ =>
         loopId (this w') = Some (S (rafLast w))
         /\ rafQueue w' = rafQueue w ++ [S (rafLast w)]
         /\ rafLast w' = S (rafLast w)
     | Throw _ =>
         loopId (this w') = loopId (this w)
         /\ rafQueue w' = rafQueue w
         /\ rafLast w' = rafLast w
     end.
Proof.
  rewrite loop_unfold. set (w1 := onThis (set_justSwapped false) w).
  assert (Hstep : forall u cu u', poll u = (cu, u') ->
            pollKeeps w1 u -> pollKeeps w1 u').
  { intros u cu u' Hu Hk. pose proof (poll_keeps u cu u' Hu) as Hk'.
    unfold pollKeeps in *.
    destruct Hk as (? & ? & ? & ? & ? & ? & ? & ? & ? & ? & ? & ? & ? & ?).
    destruct Hk' as (? & ? & ? & ? & ? & ? & ? & ? & ? & ? & ? & ? & ? & ?).
    repeat split; congruence. }
  assert (Hk1 : pollKeeps w1 w1) by (unfold pollKeeps; repeat split).
  intros H.
  assert (Hfin : exists u, pollKeeps w1 u
            /\ match c with
               | Normal _ =>
                   w' = onThis (set_loopId (Some (S (rafLast u))))
                          (set_raf (rafQueue u ++ [S (rafLast u)]) (S (rafLast u)) u)
               | Throw _ => w' = u
               end).
  { destruct (isAndroid (this w)).
    - destruct (poll w1) as [[[]|err] w2] eqn:H2;
        pose proof (Hstep w1 _ w2 H2 Hk1) as Hk2.
      + destruct (poll w2) as [[[]|err] w3] eqn:H3;
          pose proof (Hstep w2 _ w3 H3 Hk2) as Hk3;
          injection H as <- <-; eauto.
      + injection H as <- <-; eauto.
    - destruct (poll w1) as [[[]|err] w3] eqn:H3;
        pose proof (Hstep w1 _ w3 H3 Hk1) as Hk3;
        injection H as <- <-; eauto. }
  destruct Hfin as (u & Hk & Hw').
  destruct Hk as (? & ? & ? & ? & ? & Hj & ? & ? & Hq & Hl & ? & ? & ? & ?).
  unfold w1 in *.
  cbn [this onThis gamepad0 keys swapButtons inputMode isAndroid _justSwapped loopId
       active rafQueue rafLast storeSwapButtons swapWatchers keydownBound keyupBound
       set_justSwapped] in *.
  destruct c as [[]|err]; subst w'; cbn; rewrite ?Hq, ?Hl; repeat split; assumption.
Qed.

Lemma loop_UI_pico w c w' :
  String.eqb (inputMode (this w)) "GAME" = false ->
  loop w = (c, w') -> pico8_buttons w' = pico8_buttons w.
Proof.
  intros Hmode. rewrite loop_unfold. set (w1 := onThis (set_justSwapped false) w).
  assert (Hstep : forall u cu u', poll u = (cu, u') ->
            inputMode (this u) = inputMode (this w) ->
            pico8_buttons u' = pico8_buttons u /\ inputMode (this u') = inputMode (this w)).
  { intros u cu u' Hu Hm. split.
    - apply (poll_UI_pico u cu u'); [by rewrite Hm|exact Hu].
    - pose proof (poll_keeps u cu u' Hu) as (_ & _ & _ & Hm' & _). congruence. }
  destruct (isAndroid (this w)).
  - destruct (poll w1) as [[[]|err] w2] eqn:H2;
      destruct (Hstep w1 _ w2 H2 eq_refl) as [Hp2 Hm2].
    + destruct (poll w2) as [[[]|err] w3] eqn:H3;
        destruct (Hstep w2 _ w3 H3 Hm2) as [Hp3 Hm3];
        intros [= <- <-]; cbn;
        change (pico8_buttons w1) with (pico8_buttons w) in *; congruence.
    + intros [= <- <-]. exact Hp2.
  - destruct (poll w1) as [[[]|err] w3] eqn:H3;
      destruct (Hstep w1 _ w3 H3 eq_refl) as [Hp3 Hm3];
      intros [= <- <-]; cbn;
        change (pico8_buttons w1) with (pico8_buttons w) in *; congruence.
Qed.

Lemma onSwapButtons_pico v w : pico8_buttons (onSwapButtons v w) = pico8_buttons w.
Proof. unfold onSwapButtons. by destruct (_ && _). Qed.

Lemma notifyAll_pico ns w : pico8_buttons (notifyAll ns w) = pico8_buttons w.
Proof.
  revert w. induction ns as [|n ns IH]; intros w; [done|].
  unfold notifyAll in *. cbn [foldl]. rewrite IH.
  destruct n as [key type|gp|v]; cbn [notify]; [done..|].
  unfold storeSetSwapButtons. destruct (Bool.eqb _ _); [done|].
  induction (swapWatchers w) as [|k IHk]; [done|].
  by rewrite Nat.iter_succ, onSwapButtons_pico.
Qed.

Lemma runFrames_cons ns fs w :
  runFrames (ns :: fs) w =
  match loop (notifyAll ns w) with
  | (Normal _, w1) => runFrames fs w1
  | (Throw err, w1) => (Throw err, w1)
  end.
Proof. reflexivity. Qed.

Lemma runFrames_UI_pico fs : forall w c w',
  inputMode (this w) = "UI" ->
  runFrames fs w = (c, w') ->
  pico8_buttons w' = pico8_buttons w /\ inputMode (this w') = "UI".
Proof.
  induction fs as [|ns fs IH]; intros w c w' Hmode.
  - by intros [= <- <-].
  - rewrite runFrames_cons.
    destruct (notifyAll_frame ns w) as (Hm0 & _ & _).
    destruct (loop (notifyAll ns w)) as [c1 w1] eqn:Hloop.
    assert (Hm1 : String.eqb (inputMode (this (notifyAll ns w))) "GAME" = false)
      by (by rewrite Hm0, Hmode).
    pose proof (loop_UI_pico _ _ _ Hm1 Hloop) as Hp.
    pose proof (loop_outcome _ _ _ Hloop) as ((_ & _ & _ & Hm & _) & _).
    rewrite notifyAll_pico in Hp.
    destruct c1 as [[]|err].
    + intros Hrun. destruct (IH w1 c w') as [Hp' Hm']; [congruence|exact Hrun|].
      split; congruence.
    + intros [= <- <-]. split; congruence.
Qed.

(** X5.  Frames run in UI mode never write [window.pico8_buttons],
    whether they complete or throw: after [setMode("UI")] slot 0 reads 0
    for as long as frames and notifications follow. *)
Theorem ui_frames_never_write_the_mask :
  (forall w fs c w',
     inputMode (this w) = "UI" ->
     runFrames fs w = (c, w') ->
     pico8_buttons w' = pico8_buttons w)
  /\ (forall w fs c w' arr,
        runFrames fs (setMode (JsString "UI") w) = (c, w') ->
        pico8_buttons w' = Some arr ->
        arr !! 0%nat = Some 0).
Proof.
  split.
  - intros w fs c w' Hmode Hrun. by destruct (runFrames_UI_pico fs w c w' Hmode Hrun).
  - intros w fs c w' arr Hrun Harr.
    destruct (setMode_valid "UI" w) as (Hthis & _ & _ & Hpico); [by left|].
    destruct (runFrames_UI_pico fs _ c w' (f_equal inputMode Hthis) Hrun) as [Hp _].
    rewrite Hp, Hpico in Harr. cbn [String.eqb Ascii.eqb Bool.eqb] in Harr.
    destruct (pico8_buttons w); [|discriminate]. injection Harr as <-.
    apply assign0_lookup.
Qed.

(** X6.  [loop] always leaves [_justSwapped] false.  When it completes it
    has requested exactly one animation frame, with a fresh non-zero
    handle stored in [loopId]; when a poll throws nothing is requested and
    [loopId] is what it was, so the frame driver stops. *)
Theorem loop_schedules_one_frame (w : World) (c : Completion unit) (w' : World) :
  loop w = (c, w') ->
  _justSwapped (this w') = false
  /\ match c with
     | Normal _ =>
         loopId (this w') = Some (S (rafLast w))
         /\ loopRunning w' = true
         /\ rafQueue w' = rafQueue w ++ [S (rafLast w)]
         /\ (handlesIssued w -> (S (rafLast w) ∉ rafQueue w) /\ handlesIssued w')
     | Throw _ =>
         loopId (this w') = loopId (this w)
         /\ rafQueue w' = rafQueue w
     end.
Proof.
  intros Hloop. destruct (loop_outcome w c w' Hloop) as (_ & Hj & Hc).
  split; [exact Hj|]. destruct c as [[]|err].
  - destruct Hc as (Hid & Hq & Hl). split; [exact Hid|]. split.
    { unfold loopRunning. by rewrite Hid. }
    split; [exact Hq|]. unfold handlesIssued. intros Hiss. split.
    + intros Hin. rewrite Forall_forall in Hiss. specialize (Hiss _ Hin). lia.
    + rewrite Hq, Hl. apply Forall_app. split.
      * eapply Forall_impl; [exact Hiss|]. cbn. intros; lia.
      * apply Forall_singleton. lia.
  - destruct Hc as (Hid & Hq & _). by split.
Qed.

(** ** Counting events over a run *)

Lemma isGuarded_false e : isGuarded e = false -> e <> "back" /\ e <> "confirm".
Proof.
  unfold isGuarded. intros H. apply orb_false_elim in H as [Hb Hc].
  by apply String.eqb_neq in Hb, Hc.
Qed.

Lemma onSwapButtons_unguarded v w e :
  isGuarded e = false ->
  lastButtonState (this (onSwapButtons v w)) !! e = lastButtonState (this w) !! e.
Proof.
  intros He. apply isGuarded_false in He as [Hb Hc].
  unfold onSwapButtons. destruct (_ && _); [|done]. cbn.
  by rewrite !lookup_insert_ne.
Qed.

Lemma notifyAll_quiet e ns w :
  isGuarded e = false \/ noSwap ns = true ->
  wasPressed (notifyAll ns w) e = wasPressed w e.
Proof.
  revert w. induction ns as [|n ns IH]; intros w Hq; [done|].
  unfold notifyAll in *. cbn [foldl].
  assert (Hq' : isGuarded e = false \/ noSwap ns = true).
  { destruct Hq as [?|Hq]; [by left|right].
    unfold noSwap in *. cbn [forallb] in Hq. by apply andb_true_iff in Hq as [_ ?]. }
  rewrite (IH _ Hq'). unfold wasPressed. f_equal.
  destruct n as [key type|gp|v]; cbn [notify]; [done..|].
  destruct Hq as [Hg|Hq]; [|discriminate].
  unfold storeSetSwapButtons. destruct (Bool.eqb _ _); [done|].
  induction (swapWatchers w) as [|k IHk]; [done|].
  by rewrite Nat.iter_succ, onSwapButtons_unguarded.
Qed.

Lemma last_nonempty_default (x : bool) (l : list bool) (d1 d2 : bool) :
  List.last (x :: l) d1 = List.last (x :: l) d2.
Proof.
  revert x. induction l as [|y l IH]; intros x; [reflexivity|].
  change (List.last (y :: l) d1 = List.last (y :: l) d2). apply IH.
Qed.

Section EdgeCount.

Variable e : string.
Hypothesis He : e ∈ navEvents.

Lemma run_counts_edges (fs : list (list Notification)) :
  forall w rs,
  inputMode (this w) = "UI" ->
  readingsOf e fs w = Some <$> rs ->
  isGuarded e = false \/ forallb noSwap fs = true ->
  exists w' evs,
    runFrames fs w = (Normal tt, w')
    /\ emitted w' = emitted w ++ evs
    /\ occurrences e evs = risingEdges (wasPressed w e) rs
    /\ wasPressed w' e = List.last rs (wasPressed w e).
Proof.
  induction fs as [|ns fs IH]; intros w rs Hmode Hrs Hq.
  - destruct rs; [|discriminate]. exists w, []. by rewrite app_nil_r.
  - destruct rs as [|r rs]; [discriminate|].
    cbn [readingsOf fmap list_fmap] in Hrs. injection Hrs as Hr Hrs.
    assert (Hq0 : isGuarded e = false \/ noSwap ns = true).
    { destruct Hq as [?|Hq]; [by left|right]. cbn [forallb] in Hq.
      by apply andb_true_iff in Hq as [? _]. }
    assert (Hq' : isGuarded e = false \/ forallb noSwap fs = true).
    { destruct Hq as [?|Hq]; [by left|right]. cbn [forallb] in Hq.
      by apply andb_true_iff in Hq as [_ ?]. }
    destruct (notifyAll_frame ns w) as (Hm0 & He0 & _).
    destruct (loop_UI_event e He (notifyAll ns w) r)
      as (w1 & Hloop & Hm1 & Hmem1 & Hc1 & evs1 & Hevs1); [congruence|exact Hr|].
    rewrite frame_unfold, Hloop in Hrs. cbn [snd] in Hrs.
    destruct (IH w1 rs Hm1 Hrs Hq') as (w' & evs & Hrun & Hevs & Hc & Hlast).
    exists w', (evs1 ++ evs). rewrite runFrames_cons, Hloop.
    split; [exact Hrun|]. split; [by rewrite Hevs, Hevs1, He0, app_assoc|].
    rewrite (eventsSince_app _ _ _ Hevs1), (notifyAll_quiet e ns w Hq0) in Hc1.
    rewrite occurrences_app, Hc1, Hc, Hlast, Hmem1. split; [reflexivity|].
    destruct rs as [|r' rs]; [reflexivity|].
    change (List.last (r' :: rs) r = List.last (r' :: rs) (wasPressed w e)).
    apply last_nonempty_default.
Qed.

(** X4.  Over a run of UI frames, for a direction event (or for confirm
    and back when no swap assignment arrives), the number of events
    emitted is the number of rising edges in the sequence of readings,
    counted from the edge memory at the start, and the edge memory at the
    end is the last reading: press, release, press fires twice. *)
Theorem events_count_rising_edges (fs : list (list Notification)) (w : World)
    (rs : list bool) :
  inputMode (this w) = "UI" ->
  readingsOf e fs w = Some <$> rs ->
  isGuarded e = false \/ forallb noSwap fs = true ->
  exists w',
    runFrames fs w = (Normal tt, w')
    /\ occurrences e (eventsSince w w') = risingEdges (wasPressed w e) rs
    /\ wasPressed w' e = List.last rs (wasPressed w e).
Proof.
  intros Hmode Hrs Hq.
  destruct (run_counts_edges fs w rs Hmode Hrs Hq) as (w' & evs & Hrun & Hevs & Hc & Hl).
  exists w'. split; [exact Hrun|]. split; [|exact Hl].
  by rewrite (eventsSince_app _ _ _ Hevs).
Qed.

End EdgeCount.

Lemma events_count_rising_edges_witness :
  let w := newWorld true None in
  let fs := [[GamepadChange (Some (padWith [0%nat] []))]; [];
             [GamepadChange None]; [GamepadChange (Some (padWith [0%nat; 1%nat] []))]] in
  "confirm" ∈ navEvents
  /\ inputMode (this w) = "UI"
  /\ readingsOf "confirm" fs w = Some <$> [true; true; false; true]
  /\ (isGuarded "confirm" = false \/ forallb noSwap fs = true)
  /\ exists w', runFrames fs w = (Normal tt, w')
       /\ occurrences "confirm" (eventsSince w w') = 2%nat
       /\ wasPressed w' "confirm" = true.
Proof.
  intros w fs.
  assert (He : "confirm" ∈ navEvents) by apply confirm_back_nav.
  assert (Hmode : inputMode (this w) = "UI") by reflexivity.
  assert (Hrs : readingsOf "confirm" fs w = Some <$> [true; true; false; true])
    by (vm_compute; reflexivity).
  assert (Hq : isGuarded "confirm" = false \/ forallb noSwap fs = true)
    by (right; vm_compute; reflexivity).
  split; [exact He|]. split; [exact Hmode|]. split; [exact Hrs|]. split; [exact Hq|].
  destruct (events_count_rising_edges "confirm" He fs w _ Hmode Hrs Hq)
    as (w' & Hrun & Hc & Hl).
  exists w'. split; [exact Hrun|]. split; [rewrite Hc|rewrite Hl]; vm_compute; reflexivity.
Defined.

(** ** Start and shutdown *)

Lemma init_unfold w :
  init w =
  if loopRunning w then (Normal tt, w)
  else loop (set_keyBound true true
               (set_swapWatchers (S (swapWatchers w))
                  (onThis (set_swapButtons (storeSwapButtons w))
                     (onThis (set_active true) w)))).
Proof. unfold init, bind, get, lift, ret. by destruct (loopRunning w). Qed.

Lemma filter_all {A} (P : A -> Prop) `{!forall x, Decision (P x)} (l : list A) :
  Forall P l -> filter P l = l.
Proof.
  induction 1 as [|x l Hx Hl IH]; [reflexivity|].
  by rewrite filter_cons_True, IH.
Qed.

(** X7.  [init] on a stopped service marks it active, copies the store's
    swap flag into the cache, attaches both key handlers and registers one
    more watcher, also when the first frame throws; a frame is scheduled
    exactly when the first frame completes. *)
Theorem init_from_stopped (w : World) (c : Completion unit) (w' : World) :
  loopRunning w = false ->
  init w = (c, w') ->
  active (this w') = true
  /\ swapButtons (this w') = storeSwapButtons w
  /\ keydownBound w' = true /\ keyupBound w' = true
  /\ swapWatchers w' = S (swapWatchers w)
  /\ match c with
     | Normal _ =>
         loopRunning w' = true /\ rafQueue w' = rafQueue w ++ [S (rafLast w)]
     | Throw _ =>
         loopRunning w' = false /\ rafQueue w' = rafQueue w
     end.
Proof.
  intros Hstop. rewrite init_unfold, Hstop. intros Hloop.
  destruct (loop_outcome _ _ _ Hloop)
    as ((_ & _ & Hs & _ & _ & Ha & _ & Hw & Hkd & Hku) & _ & Hc).
  cbn in Hs, Ha, Hw, Hkd, Hku.
  repeat (split; [assumption|]).
  destruct c as [[]|err]; destruct Hc as (Hid & Hq & _); cbn in Hid, Hq.
  - split; [|exact Hq]. unfold loopRunning. by rewrite Hid.
  - split; [|exact Hq]. unfold loopRunning in *. by rewrite Hid.
Qed.

Lemma init_from_stopped_witness :
  let w := newWorld false None in
  loopRunning w = false
  /\ init w = (Normal tt, (init w).2)
  /\ active (this (init w).2) = true
  /\ loopRunning (init w).2 = true
  /\ swapWatchers (init w).2 = 1%nat.
Proof.
  intros w.
  assert (Hstop : loopRunning w = false) by reflexivity.
  assert (Hinit : init w = (Normal tt, (init w).2)) by (vm_compute; reflexivity).
  destruct (init_from_stopped w _ _ Hstop Hinit) as (Ha & _ & _ & _ & Hw & Hrun & _).
  split; [exact Hstop|]. split; [exact Hinit|]. split; [exact Ha|].
  split; [exact Hrun|]. exact Hw.
Defined.

(** X8.  [init] is idempotent: after an [init] that completed, a second
    [init] changes nothing. *)
Theorem init_twice_is_init_once (w w1 : World) :
  init w = (Normal tt, w1) -> init w1 = (Normal tt, w1).
Proof.
  intros Hinit. rewrite (init_unfold w1).
  destruct (loopRunning w) eqn:Hrun.
  - rewrite init_unfold, Hrun in Hinit. injection Hinit as <-. by rewrite Hrun.
  - rewrite init_unfold, Hrun in Hinit.
    destruct (loop_outcome _ _ _ Hinit) as (_ & _ & Hid & _).
    unfold loopRunning. by rewrite Hid.
Qed.

Lemma init_twice_is_init_once_witness :
  let w := newWorld true (Some (padWith [0%nat] [])) in
  init w = (Normal tt, (init w).2)
  /\ init (init w).2 = (Normal tt, (init w).2).
Proof.
  intros w.
  assert (Hinit : init w = (Normal tt, (init w).2)) by (vm_compute; reflexivity).
  split; [exact Hinit|]. exact (init_twice_is_init_once w _ Hinit).
Defined.

Lemma destroy_running w id :
  loopId (this w) = Some (S id) ->
  rafQueue (destroy w) = filter (fun h => h <> S id) (rafQueue w)
  /\ this (destroy w) = set_active false (set_loopId None (this w))
  /\ keydownBound (destroy w) = false /\ keyupBound (destroy w) = false
  /\ swapWatchers (destroy w) = swapWatchers w.
Proof.
  intros Hid. unfold destroy, loopRunning. rewrite Hid. cbn [Nat.eqb negb default].
  repeat split.
Qed.

(** X9.  [destroy] after [init] leaves no frame of the service pending
    (the queue of handles is what it was before [init]), with [loopId]
    null, the service inactive and the key handlers detached, so a later
    [init] starts again; the watcher registered by [init] stays. *)
Theorem init_destroy_round_trip (w w1 : World) :
  loopRunning w = false ->
  handlesIssued w ->
  init w = (Normal tt, w1) ->
  rafQueue (destroy w1) = rafQueue w
  /\ loopId (this (destroy w1)) = None
  /\ loopRunning (destroy w1) = false
  /\ active (this (destroy w1)) = false
  /\ keydownBound (destroy w1) = false /\ keyupBound (destroy w1) = false
  /\ swapWatchers (destroy w1) = S (swapWatchers w).
Proof.
  intros Hstop Hiss Hinit. rewrite init_unfold, Hstop in Hinit.
  destruct (loop_outcome _ _ _ Hinit)
    as ((_ & _ & _ & _ & _ & _ & _ & Hw & _) & _ & Hid & Hq & _).
  cbn [swapWatchers set_keyBound set_swapWatchers rafLast rafQueue onThis] in Hw, Hid, Hq.
  destruct (destroy_running w1 _ Hid) as (Hq' & Hthis & Hkd & Hku & Hw').
  unfold loopRunning. rewrite Hthis, Hq', Hw', Hw. cbn [loopId active set_active set_loopId].
  repeat split; try assumption.
  rewrite Hq, filter_app.
  rewrite filter_cons_False by (intros H; by apply H).
  rewrite filter_nil, app_nil_r. apply filter_all.
  unfold handlesIssued in Hiss. eapply Forall_impl; [exact Hiss|].
  cbn. intros h Hh. lia.
Qed.

Lemma init_destroy_round_trip_witness :
  let w := newWorld false None in
  loopRunning w = false /\ handlesIssued w
  /\ init w = (Normal tt, (init w).2)
  /\ rafQueue (destroy (init w).2) = rafQueue w
  /\ swapWatchers (destroy (init w).2) = 1%nat.
Proof.
  intros w.
  assert (Hstop : loopRunning w = false) by reflexivity.
  assert (Hiss : handlesIssued w) by constructor.
  assert (Hinit : init w = (Normal tt, (init w).2)) by (vm_compute; reflexivity).
  destruct (init_destroy_round_trip w _ Hstop Hiss Hinit) as (Hq & _ & _ & _ & _ & _ & Hw).
  split; [exact Hstop|]. split; [exact Hiss|]. split; [exact Hinit|].
  split; [exact Hq|]. exact Hw.
Defined.

(** X10.  [destroy] is idempotent. *)
Theorem destroy_idempotent (w : World) : destroy (destroy w) = destroy w.
Proof.
  destruct w as [[mode act lid mem buf swap android just ks] pico gp store watchers kd ku q l em].
  unfold destroy, loopRunning. cbn.
  destruct lid as [[|n]|]; reflexivity.
Qed.

(** ** The swap watcher *)

Lemma onSwapButtons_cache v w : swapButtons (this (onSwapButtons v w)) = v.
Proof. unfold onSwapButtons. by destruct (_ && _). Qed.

Lemma set_swapButtons_same w :
  onThis (set_swapButtons (swapButtons (this w))) w = w.
Proof. by destruct w as [[] ?]. Qed.

Lemma onSwapButtons_idempotent v w :
  onSwapButtons v (onSwapButtons v w) = onSwapButtons v w.
Proof.
  pose proof (onSwapButtons_cache v w) as Hs.
  set (w1 := onSwapButtons v w) in *.
  unfold onSwapButtons. cbn [this onThis inputMode swapButtons set_swapButtons].
  rewrite Hs, Bool.eqb_reflx, andb_false_r.
  rewrite <- Hs at 1. apply set_swapButtons_same.
Qed.

Lemma iter_onSwapButtons v k w :
  Nat.iter (S k) (onSwapButtons v) w = onSwapButtons v w.
Proof.
  induction k as [|k IH]; [reflexivity|].
  rewrite Nat.iter_succ, IH. apply onSwapButtons_idempotent.
Qed.

Lemma leaked_watchers_step (v : bool) (w : World) :
  (1 <= swapWatchers w)%nat ->
  storeSetSwapButtons v w
  = if Bool.eqb v (storeSwapButtons w) then w
    else onSwapButtons v (set_storeSwapButtons v w).
Proof.
  intros Hw. unfold storeSetSwapButtons. destruct (Bool.eqb _ _); [reflexivity|].
  destruct (swapWatchers w) as [|k]; [lia|]. apply iter_onSwapButtons.
Qed.

(** X11.  Watchers left registered by earlier [init] calls change
    nothing: an assignment to the store's swap flag has the same effect
    with any positive number of watchers as with exactly one. *)
Theorem leaked_watchers_are_harmless (v : bool) (w : World) :
  (1 <= swapWatchers w)%nat ->
  storeSetSwapButtons v w
  = set_swapWatchers (swapWatchers w)
      (storeSetSwapButtons v (set_swapWatchers 1 w)).
Proof.
  intros Hw. rewrite (leaked_watchers_step v w Hw).
  rewrite (leaked_watchers_step v (set_swapWatchers 1 w)) by (cbn; lia).
  cbn [storeSwapButtons set_swapWatchers].
  destruct (Bool.eqb _ _).
  - by destruct w.
  - unfold onSwapButtons.
    cbn [this onThis inputMode swapButtons set_swapButtons set_storeSwapButtons
         set_swapWatchers].
    destruct (_ && _); by destruct w.
Qed.

Lemma leaked_watchers_are_harmless_witness :
  let w := set_swapWatchers 2 (newWorld false None) in
  (1 <= swapWatchers w)%nat
  /\ storeSetSwapButtons true w
     = set_swapWatchers (swapWatchers w)
         (storeSetSwapButtons true (set_swapWatchers 1 w)).
Proof.
  intros w.
  assert (H1 : (1 <= swapWatchers w)%nat) by (cbn; lia).
  split; [exact H1|].
  exact (leaked_watchers_are_harmless true w H1).
Defined.

Lemma setMode_store m w :
  storeSwapButtons (setMode m w) = storeSwapButtons w
  /\ swapWatchers (setMode m w) = swapWatchers w
  /\ swapButtons (this (setMode m w)) = swapButtons (this w).
Proof.
  unfold setMode. destruct (isMode m) as [s|]; [|done].
  destruct (String.eqb s "UI"); [|done].
  unfold writeButtons. cbn. by destruct (pico8_buttons w).
Qed.

Lemma storeSetSwapButtons_coherent v w :
  cacheCoherent w -> cacheCoherent (storeSetSwapButtons v w).
Proof.
  intros [Hw Hc]. rewrite (leaked_watchers_step v w Hw).
  destruct (Bool.eqb _ _); [by split|]. split.
  - unfold onSwapButtons. by destruct (_ && _).
  - rewrite onSwapButtons_cache. unfold onSwapButtons. by destruct (_ && _).
Qed.

Lemma init_setup_coherent w :
  cacheCoherent
    (set_keyBound true true
       (set_swapWatchers (S (swapWatchers w))
          (onThis (set_swapButtons (storeSwapButtons w))
             (onThis (set_active true) w)))).
Proof. split; cbn; [lia|reflexivity]. Qed.

(** X12.  From [init] on, the cached swap flag equals the store's flag:
    [init] on a stopped service establishes it, and store assignments, key
    and gamepad notifications, frames, [init], [setMode] and [destroy]
    keep it. *)
Theorem swap_cache_follows_store :
  (forall w c w',
     loopRunning w = false -> init w = (c, w') -> cacheCoherent w')
  /\ (forall w,
        cacheCoherent w ->
        (forall n, cacheCoherent (notify n w))
        /\ (forall c w', loop w = (c, w') -> cacheCoherent w')
        /\ (forall c w', init w = (c, w') -> cacheCoherent w')
        /\ (forall m, cacheCoherent (setMode m w))
        /\ cacheCoherent (destroy w)).
Proof.
  assert (Hloop : forall w c w', cacheCoherent w -> loop w = (c, w') -> cacheCoherent w').
  { intros w c w' [Hw Hc] Hl.
    destruct (loop_outcome _ _ _ Hl) as ((_ & _ & Hs & _ & _ & _ & Hst & Hwa & _) & _).
    split; congruence. }
  split.
  - intros w c w' Hstop Hinit. rewrite init_unfold, Hstop in Hinit.
    apply (Hloop _ _ _ (init_setup_coherent w) Hinit).
  - intros w Hcoh. split; [|split; [|split; [|split]]].
    + intros [key type|gp|v]; cbn [notify]; [exact Hcoh..|].
      by apply storeSetSwapButtons_coherent.
    + intros c w'. by apply Hloop.
    + intros c w' Hinit. rewrite init_unfold in Hinit.
      destruct (loopRunning w); [by injection Hinit as <- <-|].
      apply (Hloop _ _ _ (init_setup_coherent w) Hinit).
    + intros m. destruct Hcoh as [Hw Hc], (setMode_store m w) as (Hst & Hwa & Hs).
      split; congruence.
    + destruct Hcoh as [Hw Hc]. unfold destroy.
      destruct (loopRunning w); by split.
Qed.

(** ** Keyboard events and the key table *)



(** ** Directions *)

(** A completed sample is one of the two closed forms; without the axes
    array it completes only when all four d-pad buttons are down, which
    reads like an empty axes array. *)
Lemma sampleInto_normal gp ks b b' :
  sampleInto gp ks b = (Normal tt, b') ->
  match gp with
  | None => b' = sampledWithout ks
  | Some gp =>
      exists btns, buttons gp = Some btns
        /\ b' = sampledWith btns (default [] (axes gp)) ks
  end.
Proof.
  destruct gp as [[[btns|] [axs|]]|].
  - rewrite sampleInto_some. intros [= <-]. by exists btns.
  - intros H. exists btns. split; [reflexivity|]. revert H.
    unfold sampleInto, sampleGamepad, sampleKeyboard, bind, lift, when.
    cbn [buttons axes default]. rewrite !face_some.
    unfold hybrid, pressedAt, axisAt, bind, ret, throw, sampledWith.
    unfold buttonPressed.
    destruct (truthy match btns !! 12%nat with Some (Some btn) => pressed btn | _ => None end);
      [|discriminate].
    destruct (truthy match btns !! 13%nat with Some (Some btn) => pressed btn | _ => None end);
      [|discriminate].
    destruct (truthy match btns !! 14%nat with Some (Some btn) => pressed btn | _ => None end);
      [|discriminate].
    destruct (truthy match btns !! 15%nat with Some (Some btn) => pressed btn | _ => None end);
      [|discriminate].
    destruct (truthy (ks !! "ArrowUp")), (truthy (ks !! "ArrowDown")),
      (truthy (ks !! "ArrowLeft")), (truthy (ks !! "ArrowRight")); cbn;
      by intros [= <-].
  - discriminate.
  - discriminate.
  - rewrite sampleInto_none. by intros [= <-].
Qed.

Lemma poll_arrows w w' :
  poll w = (Normal tt, w') ->
  (keyHeld w "ArrowLeft" = true -> Buf.left (_inputBuffer (this w')) = true)
  /\ (keyHeld w "ArrowRight" = true -> Buf.right (_inputBuffer (this w')) = true)
  /\ (keyHeld w "ArrowUp" = true -> Buf.up (_inputBuffer (this w')) = true)
  /\ (keyHeld w "ArrowDown" = true -> Buf.down (_inputBuffer (this w')) = true).
Proof.
  intros Hpoll. apply poll_buffer in Hpoll as (Hb & _).
  apply sampleInto_normal in Hb. unfold keyHeld.
  destruct (gamepad0 w) as [gp|].
  - destruct Hb as (btns & _ & ->). cbn. repeat split; by intros ->.
  - rewrite Hb. cbn. repeat split; by intros ->.
Qed.

(** X14.  A held arrow key sets its direction flag in every completed
    poll, whatever the gamepad reports, and in GAME mode the matching bit
    of the mask written to slot 0. *)
Theorem held_arrow_key_sets_direction (w w' : World) :
  poll w = (Normal tt, w') ->
  let buf := _inputBuffer (this w') in
  ((keyHeld w "ArrowLeft" = true -> Buf.left buf = true)
   /\ (keyHeld w "ArrowRight" = true -> Buf.right buf = true)
   /\ (keyHeld w "ArrowUp" = true -> Buf.up buf = true)
   /\ (keyHeld w "ArrowDown" = true -> Buf.down buf = true))
  /\ (inputMode (this w) = "GAME" ->
      forall arr, pico8_buttons w' = Some arr ->
      exists mask, arr !! 0%nat = Some mask
        /\ (keyHeld w "ArrowLeft" = true -> Z.testbit mask 0 = true)
        /\ (keyHeld w "ArrowRight" = true -> Z.testbit mask 1 = true)
        /\ (keyHeld w "ArrowUp" = true -> Z.testbit mask 2 = true)
        /\ (keyHeld w "ArrowDown" = true -> Z.testbit mask 3 = true)).
Proof.
  intros Hpoll. cbv zeta.
  pose proof (poll_arrows w w' Hpoll) as Harr. split; [exact Harr|].
  intros Hmode arr Hpico. rewrite (poll_GAME_pico w w' Hmode Hpoll) in Hpico.
  destruct (pico8_buttons w) as [old|]; [|discriminate]. injection Hpico as <-.
  exists (gameMask w'). split; [apply assign0_lookup|].
  destruct (gameMask_bits w') as (H0 & H1 & H2 & H3 & _).
  destruct Harr as (Hl & Hr & Hu & Hd).
  rewrite H0, H1, H2, H3. auto.
Qed.

Lemma held_arrow_key_sets_direction_witness :
  poll gameWorld = (Normal tt, (poll gameWorld).2)
  /\ keyHeld gameWorld "ArrowUp" = true
  /\ Buf.up (_inputBuffer (this (poll gameWorld).2)) = true.
Proof.
  assert (Hpoll : poll gameWorld = (Normal tt, (poll gameWorld).2)) by (vm_compute; reflexivity).
  assert (Hkey : keyHeld gameWorld "ArrowUp" = true) by (vm_compute; reflexivity).
  split; [exact Hpoll|]. split; [exact Hkey|].
  destruct (held_arrow_key_sets_direction gameWorld _ Hpoll) as ((_ & _ & Hu & _) & _).
  exact (Hu Hkey).
Defined.





(** ** Order of the events of one poll *)

(** X16.  The first UI poll after the edge memory was cleared emits the
    events of all inputs that read pressed, once each, in the fixed order
    nav-up, nav-down, nav-left, nav-right, confirm, back. *)
Theorem first_ui_poll_emits_in_call_order (w w' : World) :
  inputMode (this w) = "UI" ->
  lastButtonState (this w) = clearedButtonState ->
  poll w = (Normal tt, w') ->
  eventsSince w w' = (filter (fun ep => ep.2 = true) (uiSignals w')).*1.
Proof.
  intros Hmode Hmem Hpoll. rewrite poll_unfold, Hmode in Hpoll.
  destruct (sample w) as [[[]|err] ws] eqn:Hs; [|discriminate].
  cbn [String.eqb Ascii.eqb Bool.eqb] in Hpoll. injection Hpoll as <-.
  destruct (sample_normal w ws Hs) as (Hthis & Hem & _).
  rewrite (uiSignals_ext (pollUI ws) ws) by (by rewrite pollUI_this).
  unfold eventsSince. rewrite pollUI_emitted, Hthis.
  cbn [lastButtonState set_inputBuffer _justSwapped]. rewrite Hmem, Hem.
  unfold uiSignals.
  generalize (Buf.up (_inputBuffer (this ws))) (Buf.down (_inputBuffer (this ws)))
    (Buf.left (_inputBuffer (this ws))) (Buf.right (_inputBuffer (this ws)))
    (uiConfirm ws) (uiBack ws) (_justSwapped (this w)) (emitted w).
  intros u d l r c b g em.
  assert (Hrun : forall sig : list (string * bool),
            (edgeRun g sig (clearedButtonState, em)).2
            = em ++ (edgeRun g sig (clearedButtonState, [])).2).
  { intros sig. generalize clearedButtonState. revert em.
    induction sig as [|[e0 p0] sig IH]; intros em m; [by rewrite app_nil_r|].
    rewrite !edgeRun_cons, (IH (em ++ _)), (IH ([] ++ _)). by rewrite app_assoc. }
  rewrite Hrun, drop_app_length.
  destruct u, d, l, r, c, b, g; vm_compute; reflexivity.
Qed.

Lemma first_ui_poll_emits_in_call_order_witness :
  let w := setMode (JsString "UI")
             (handleKey "ArrowUp" "keydown" (newWorld false (Some (padWith [1%nat; 0%nat] [])))) in
  inputMode (this w) = "UI"
  /\ lastButtonState (this w) = clearedButtonState
  /\ poll w = (Normal tt, (poll w).2)
  /\ eventsSince w (poll w).2 = ["nav-up"; "confirm"; "back"].
Proof.
  intros w.
  assert (Hmode : inputMode (this w) = "UI") by reflexivity.
  assert (Hmem : lastButtonState (this w) = clearedButtonState) by reflexivity.
  assert (Hpoll : poll w = (Normal tt, (poll w).2)) by (vm_compute; reflexivity).
  split; [exact Hmode|]. split; [exact Hmem|]. split; [exact Hpoll|].
  rewrite (first_ui_poll_emits_in_call_order w _ Hmode Hmem Hpoll).
  vm_compute. reflexivity.
Defined.

(** ** Swap changes outside UI mode *)

Lemma onSwapButtons_outside_UI v w :
  String.eqb (inputMode (this w)) "UI" = false ->
  onSwapButtons v w = onThis (set_swapButtons v) w.
Proof. intros H. unfold onSwapButtons. cbn [this onThis inputMode set_swapButtons]. by rewrite H. Qed.

(** X17.  Outside UI mode an assignment to the store's swap flag touches
    neither the edge memory nor [_justSwapped], emits nothing and leaves
    [window.pico8_buttons] alone, for any number of watchers. *)
Theorem swap_change_outside_ui_raises_no_guard (v : bool) (w : World) :
  inputMode (this w) <> "UI" ->
  let w' := storeSetSwapButtons v w in
  lastButtonState (this w') = lastButtonState (this w)
  /\ _justSwapped (this w') = _justSwapped (this w)
  /\ inputMode (this w') = inputMode (this w)
  /\ emitted w' = emitted w
  /\ pico8_buttons w' = pico8_buttons w.
Proof.
  intros Hmode. cbv zeta. unfold storeSetSwapButtons.
  destruct (Bool.eqb _ _); [done|].
  apply String.eqb_neq in Hmode.
  induction (swapWatchers w) as [|k (IHm & IHj & IHi & IHe & IHp)]; [done|].
  rewrite Nat.iter_succ, onSwapButtons_outside_UI by (by rewrite IHi).
  done.
Qed.

Lemma swap_change_outside_ui_raises_no_guard_witness :
  let w := set_swapWatchers 1 gameWorld in
  inputMode (this w) <> "UI"
  /\ _justSwapped (this (storeSetSwapButtons true w)) = false
  /\ swapButtons (this (storeSetSwapButtons true w)) = true.
Proof.
  intros w.
  assert (Hmode : inputMode (this w) <> "UI") by discriminate.
  destruct (swap_change_outside_ui_raises_no_guard true w Hmode) as (_ & Hj & _).
  split; [exact Hmode|]. split; [rewrite Hj|]; vm_compute; reflexivity.
Defined.

(** ** Further instances on sample worlds *)

Lemma second_poll_is_silent_witness :
  poll gameWorld = (Normal tt, (poll gameWorld).2)
  /\ exists w2,
       poll (poll gameWorld).2 = (Normal tt, w2)
       /\ emitted w2 = emitted (poll gameWorld).2
       /\ pico8_buttons w2 = pico8_buttons (poll gameWorld).2.
Proof.
  assert (Hpoll : poll gameWorld = (Normal tt, (poll gameWorld).2)) by (vm_compute; reflexivity).
  split; [exact Hpoll|].
  destruct (second_poll_is_silent gameWorld _ Hpoll) as (w2 & H2 & He & Hp & _).
  exists w2. split; [exact H2|]. split; [exact He|exact Hp].
Defined.

Lemma ui_frames_never_write_the_mask_witness :
  let w := newWorld true (Some (padWith [0%nat] [])) in
  let fs := [[]; [KeyTransition "ArrowUp" "keydown"]] in
  inputMode (this w) = "UI"
  /\ runFrames fs w = ((runFrames fs w).1, (runFrames fs w).2)
  /\ pico8_buttons (runFrames fs w).2 = pico8_buttons w.
Proof.
  intros w fs.
  assert (Hmode : inputMode (this w) = "UI") by reflexivity.
  assert (Hrun : runFrames fs w = ((runFrames fs w).1, (runFrames fs w).2))
    by apply surjective_pairing.
  split; [exact Hmode|]. split; [exact Hrun|].
  exact (proj1 ui_frames_never_write_the_mask w fs _ _ Hmode Hrun).
Defined.

Lemma loop_schedules_one_frame_witness :
  let w := newWorld false None in
  loop w = (Normal tt, (loop w).2)
  /\ _justSwapped (this (loop w).2) = false
  /\ loopId (this (loop w).2) = Some (S (rafLast w))
  /\ rafQueue (loop w).2 = rafQueue w ++ [S (rafLast w)].
Proof.
  intros w.
  assert (Hloop : loop w = (Normal tt, (loop w).2)) by (vm_compute; reflexivity).
  split; [exact Hloop|].
  destruct (loop_schedules_one_frame w _ _ Hloop) as (Hj & Hid & _ & Hq & _).
  split; [exact Hj|]. split; [exact Hid|exact Hq].
Defined.

Lemma swap_cache_follows_store_witness :
  let w := newWorld false None in
  loopRunning w = false
  /\ init w = (Normal tt, (init w).2)
  /\ cacheCoherent (init w).2
  /\ cacheCoherent (notify (SwapAssigned true) (init w).2).
Proof.
  intros w.
  assert (Hstop : loopRunning w = false) by reflexivity.
  assert (Hinit : init w = (Normal tt, (init w).2)) by (vm_compute; reflexivity).
  pose proof (proj1 swap_cache_follows_store w _ _ Hstop Hinit) as Hcoh.
  split; [exact Hstop|]. split; [exact Hinit|]. split; [exact Hcoh|].
  exact (proj1 (proj2 swap_cache_follows_store _ Hcoh) (SwapAssigned true)).
Defined.
